(** * Product catalog: the FastAPI service (main.py) and its MCP proxy (mcp_server.py)

    The development embeds the request handlers of [main.py], the field
    constraints declared on its pydantic models, the table declared by
    [ProductModel], and the tools of [mcp_server.py].

    Conventions of the embedding.
    - Python [int] is [Z]; [str] is [string] (one character per code point);
      [float] is a binary64 primitive float; [Optional[T]] is [option T].
    - JSON has no infinity and no NaN: a response or a request body that holds
      one cannot be written, and a response model writes such a value as
      null.
    - The table [products] is a list of rows in the order of the primary-key
      scan, together with the AUTO_INCREMENT counter of the key.  The table is
      the one the ORM class declares: [name] and [price] are NOT NULL, the
      other columns are nullable, no column has a server-side default or an
      on-update rule.  Column values are stored as they are given.
    - SQL equality on text is modelled as equality of strings.
    - A handler is a function from the table to an outcome and a new table. *)

From Stdlib Require Import ZArith List String Bool Lia Floats Sorted DecimalString.
Import ListNotations.
Local Open Scope string_scope.
Local Open Scope list_scope.
Local Open Scope Z_scope.

(** ** Python helpers *)

Definition timestamp := Z.

(** [str(n)] for an [int], as an f-string renders it. *)
Definition str_int (n : Z) : string := NilZero.string_of_int (Z.to_int n).

(** [len(s)] *)
Definition len (s : string) : Z := Z.of_nat (String.length s).

(** Truth value of an [Optional[str]]: [None] and the empty string are false. *)
Definition truthy (s : option string) : bool :=
  match s with
  | None => false
  | Some s => negb (String.eqb s "")
  end.

Definition is_nil {A : Type} (l : list A) : bool :=
  match l with
  | [] => true
  | _ :: _ => false
  end.

(** Exceptions a handler can leave with. *)
Inductive Exception :=
| HTTPException (status_code : Z) (detail : string)
| IntegrityError (column : string)
| InvalidRequestError
| OperationalError (msg : string).

Inductive Result (A : Type) :=
| Return (a : A)
| Raise (e : Exception).
Arguments Return {A} a.
Arguments Raise {A} e.

(** ** The ORM class [ProductModel] (main.py, lines 29-39) *)

Module ProductModel.

Record t := make {
  id : Z;
  name : option string;
  price : option float;
  description : option string;
  category : option string;
  in_stock : option bool;
  created_at : option timestamp;
  updated_at : option timestamp
}.

(** Columns declared [nullable=False]. *)
Definition not_null (r : t) : Result unit :=
  match name r, price r with
  | None, _ => Raise (IntegrityError "name")
  | _, None => Raise (IntegrityError "price")
  | Some _, Some _ => Return tt
  end.

End ProductModel.

(** ** The session: queries and units of work *)

Module Db.

Record Table := {
  rows : list ProductModel.t;
  next_id : Z
}.

Definition empty : Table := {| rows := []; next_id := 1 |}.

(** A [Query] object under construction. *)
Record Query := {
  source : list ProductModel.t;
  criteria : list (ProductModel.t -> bool);
  q_offset : nat;
  q_limit : option nat
}.

Definition query (db : Table) : Query :=
  {| source := rows db; criteria := []; q_offset := 0%nat; q_limit := None |}.

Definition filter (q : Query) (c : ProductModel.t -> bool) : Query :=
  {| source := source q; criteria := criteria q ++ [c];
     q_offset := q_offset q; q_limit := q_limit q |}.

Definition offset (q : Query) (n : Z) : Query :=
  {| source := source q; criteria := criteria q;
     q_offset := Z.to_nat n; q_limit := q_limit q |}.

(** A negative LIMIT does not limit.  The route never passes one. *)
Definition limit (q : Query) (n : Z) : Query :=
  {| source := source q; criteria := criteria q;
     q_offset := q_offset q;
     q_limit := if n <? 0 then None else Some (Z.to_nat n) |}.

Definition selected (q : Query) : list ProductModel.t :=
  List.filter (fun r => forallb (fun c => c r) (criteria q)) (source q).

(** [.all()]: WHERE, then OFFSET, then LIMIT, over the table scan. *)
Definition all (q : Query) : list ProductModel.t :=
  let rest := skipn (q_offset q) (selected q) in
  match q_limit q with
  | None => rest
  | Some n => firstn n rest
  end.

(** [.first()]: the same query with LIMIT 1. *)
Definition first (q : Query) : option ProductModel.t :=
  hd_error (skipn (q_offset q) (selected q)).

(** Column comparisons.  A NULL column compares equal to no value; comparing
    with [None] is rendered IS NULL. *)
Definition id_eq (k : Z) (r : ProductModel.t) : bool :=
  Z.eqb (ProductModel.id r) k.

Definition category_eq (c : option string) (r : ProductModel.t) : bool :=
  match c, ProductModel.category r with
  | Some c, Some c' => String.eqb c' c
  | Some _, None => false
  | None, Some _ => false
  | None, None => true
  end.

Definition in_stock_eq (b : bool) (r : ProductModel.t) : bool :=
  match ProductModel.in_stock r with
  | Some b' => Bool.eqb b' b
  | None => false
  end.

Definition ids (db : Table) : list Z := map ProductModel.id (rows db).

(** The table as the key column keeps it: rows in ascending key order, every
    key positive and below the counter. *)
Definition wf (db : Table) : Prop :=
  StronglySorted Z.lt (ids db) /\ Forall (fun k => 0 < k < next_id db) (ids db)
  /\ 0 < next_id db.

(** [db.add(obj); db.commit()]: INSERT.  The transient object has no
    identifier yet; the key column hands out the counter's value. *)
Definition add_commit (db : Table) (obj : Z -> ProductModel.t) : Result (Z * Table) :=
  let row := obj (next_id db) in
  match ProductModel.not_null row with
  | Raise e => Raise e
  | Return _ =>
      Return (next_id db, {| rows := rows db ++ [row]; next_id := next_id db + 1 |})
  end.

(** [db.commit()] for a loaded object: UPDATE by key when the object was
    assigned to; a session in which nothing was assigned has nothing to flush. *)
Definition commit (db : Table) (dirty : bool) (obj : ProductModel.t) : Result Table :=
  if dirty then
    match ProductModel.not_null obj with
    | Raise e => Raise e
    | Return _ =>
        Return {| rows := map (fun r => if id_eq (ProductModel.id obj) r then obj else r) (rows db);
                  next_id := next_id db |}
    end
  else Return db.

(** [db.delete(obj); db.commit()]: DELETE by key. *)
Definition delete_commit (db : Table) (obj : ProductModel.t) : Table :=
  {| rows := List.filter (fun r => negb (id_eq (ProductModel.id obj) r)) (rows db);
     next_id := next_id db |}.

(** [db.refresh(obj)]: SELECT by key. *)
Definition refresh (db : Table) (k : Z) : Result ProductModel.t :=
  match first (filter (query db) (id_eq k)) with
  | Some r => Return r
  | None => Raise InvalidRequestError
  end.

(** [SELECT DISTINCT category]: each value once, in order of first appearance. *)
Definition same_value (a b : option string) : bool :=
  match a, b with
  | Some x, Some y => String.eqb x y
  | None, None => true
  | _, _ => false
  end.

Definition seen_in (c : option string) (seen : list (option string)) : bool :=
  existsb (same_value c) seen.

Fixpoint distinct_from (seen l : list (option string)) : list (option string) :=
  match l with
  | [] => []
  | c :: l' =>
      if seen_in c seen then distinct_from seen l'
      else c :: distinct_from (c :: seen) l'
  end.

Definition distinct (l : list (option string)) : list (option string) :=
  distinct_from [] l.

End Db.

(** ** The pydantic models (main.py, lines 43-71) *)

(** One entry of a validation report: the field and the violated constraint. *)
Definition FieldError := (string * string)%type.

Definition min_length (loc : string) (n : Z) (s : string) : list FieldError :=
  if len s <? n then [(loc, "string_too_short")] else [].

Definition max_length (loc : string) (n : Z) (s : string) : list FieldError :=
  if n <? len s then [(loc, "string_too_long")] else [].

(** [gt=0] on a float: the IEEE comparison [0 < p], which no NaN passes. *)
Definition gt (loc : string) (bound p : float) : list FieldError :=
  if PrimFloat.ltb bound p then [] else [(loc, "greater_than")].

(** The response model. *)
Module Product.

Record t := make {
  id : Z;
  name : string;
  price : float;
  description : option string;
  category : string;
  in_stock : bool
}.

(** [from_attributes = True]: read off an ORM object.  [name], [price],
    [category] and [in_stock] are not [Optional]: a [None] attribute fails. *)
Definition from_attributes (r : ProductModel.t) : option t :=
  match ProductModel.name r, ProductModel.price r,
        ProductModel.category r, ProductModel.in_stock r with
  | Some n, Some p, Some c, Some s =>
      Some (make (ProductModel.id r) n p (ProductModel.description r) c s)
  | _, _, _, _ => None
  end.

(** The serialised object, key by key. *)
Inductive Value :=
| Int (n : Z)
| Str (s : string)
| Float (x : float)
| Bool (b : bool)
| Null.

(** A JSON object. *)
Definition object := list (string * Value).

(** The object written for a response model: a price that is not finite is
    written as null. *)
Definition model_dump (p : t) : object :=
  [("id", Int (id p)); ("name", Str (name p));
   ("price", if PrimFloat.is_finite (price p) then Float (price p) else Null);
   ("description", match description p with Some d => Str d | None => Null end);
   ("category", Str (category p)); ("in_stock", Bool (in_stock p))].


End Product.

Module ProductCreate.

(** The request body as received; [None] is a key that is not there. *)
Record body := make_body {
  b_name : option string;
  b_price : option float;
  b_description : option string;
  b_category : option string;
  b_in_stock : option bool
}.

Record t := make {
  name : string;
  price : float;
  description : option string;
  category : string;
  in_stock : bool
}.

Definition name_errors (b : body) : list FieldError :=
  match b_name b with
  | None => [("name", "missing")]
  | Some s => min_length "name" 1 s ++ max_length "name" 100 s
  end.

Definition price_errors (b : body) : list FieldError :=
  match b_price b with
  | None => [("price", "missing")]
  | Some p => gt "price" 0%float p
  end.

Definition description_errors (b : body) : list FieldError :=
  match b_description b with
  | None => []
  | Some s => max_length "description" 500 s
  end.

Definition category_errors (b : body) : list FieldError :=
  match b_category b with
  | None => []
  | Some s => max_length "category" 50 s
  end.

Definition errors (b : body) : list FieldError :=
  name_errors b ++ price_errors b ++ description_errors b ++ category_errors b.

(** The floats among the inputs that the report of a rejected body repeats:
    an entry for a missing field repeats the whole body, an entry for a
    rejected price repeats the price. *)
Definition body_floats (b : body) : list float :=
  match b_price b with
  | Some p => [p]
  | None => []
  end.

Definition echoed (b : body) : list float :=
  match b_name b with
  | None => body_floats b
  | Some _ => []
  end
  ++ match b_price b with
     | Some p => if PrimFloat.ltb 0%float p then [] else [p]
     | None => []
     end.

Definition validate (b : body) : list FieldError + t :=
  match errors b, b_name b, b_price b with
  | [], Some n, Some p =>
      inr (make n p (b_description b)
                (match b_category b with Some c => c | None => "General" end)
                (match b_in_stock b with Some s => s | None => true end))
  | errs, _, _ => inl errs
  end.

End ProductCreate.

Module ProductUpdate.

(** Every field is [Optional] with default [None].  The outer [option] says
    whether the field was set by the request; the inner one is its value,
    which may be an explicit null. *)
Record t := make {
  name : option (option string);
  price : option (option float);
  description : option (option string);
  category : option (option string);
  in_stock : option (option bool)
}.

Definition empty : t := make None None None None None.

Definition name_errors (u : t) : list FieldError :=
  match name u with
  | Some (Some s) => min_length "name" 1 s ++ max_length "name" 100 s
  | _ => []
  end.

Definition price_errors (u : t) : list FieldError :=
  match price u with
  | Some (Some p) => gt "price" 0%float p
  | _ => []
  end.

Definition description_errors (u : t) : list FieldError :=
  match description u with
  | Some (Some s) => max_length "description" 500 s
  | _ => []
  end.

Definition category_errors (u : t) : list FieldError :=
  match category u with
  | Some (Some s) => max_length "category" 50 s
  | _ => []
  end.

Definition errors (u : t) : list FieldError :=
  name_errors u ++ price_errors u ++ description_errors u ++ category_errors u.

(** The floats among the inputs that the report of a rejected patch
    repeats: the rejected price. *)
Definition echoed (u : t) : list float :=
  match price u with
  | Some (Some p) => if PrimFloat.ltb 0%float p then [] else [p]
  | _ => []
  end.

Definition validate (u : t) : list FieldError + t :=
  match errors u with
  | [] => inr u
  | errs => inl errs
  end.

(** One entry of the dumped dictionary. *)
Inductive item :=
| Name (v : option string)
| Price (v : option float)
| Description (v : option string)
| Category (v : option string)
| InStock (v : option bool).

Definition entry {A : Type} (key : option A -> item) (field : option (option A)) : list item :=
  match field with
  | Some v => [key v]
  | None => []
  end.

(** [model_dump(exclude_unset=True)]: the fields the request set, in the
    order of declaration. *)
Definition model_dump_exclude_unset (u : t) : list item :=
  entry Name (name u) ++ entry Price (price u) ++ entry Description (description u)
  ++ entry Category (category u) ++ entry InStock (in_stock u).

End ProductUpdate.

(** ** The service (main.py, lines 92-222) *)

Module Api.

Import Db.

(** [HTTPException(status_code=404, detail=f"Product {product_id} not found")] *)
Definition not_found (product_id : Z) : Exception :=
  HTTPException 404 ("Product " ++ str_int product_id ++ " not found")%string.

(** *** Handlers: the bodies of the decorated functions *)

(** main.py, lines 102-121 *)
Definition list_products (db : Table) (category : option string)
    (in_stock : option bool) (skip limit : Z)
  : Result (list ProductModel.t) * Table :=
  let query := Db.query db in
  let query :=
    if truthy category then Db.filter query (category_eq category) else query in
  let query :=
    match in_stock with
    | Some b => Db.filter query (in_stock_eq b)
    | None => query
    end in
  let products := Db.all (Db.limit (Db.offset query skip) limit) in
  (Return products, db).

(** main.py, lines 124-135 *)
Definition get_product (db : Table) (product_id : Z)
  : Result ProductModel.t * Table :=
  match Db.first (Db.filter (Db.query db) (id_eq product_id)) with
  | None => (Raise (not_found product_id), db)
  | Some product => (Return product, db)
  end.

(** main.py, lines 138-158.  The object is built from the five fields of
    the body; its key and its two timestamps are not given. *)
Definition create_product (db : Table) (product : ProductCreate.t)
  : Result ProductModel.t * Table :=
  let db_product := fun key =>
    ProductModel.make key
      (Some (ProductCreate.name product))
      (Some (ProductCreate.price product))
      (ProductCreate.description product)
      (Some (ProductCreate.category product))
      (Some (ProductCreate.in_stock product))
      None None in
  match Db.add_commit db db_product with
  | Raise e => (Raise e, db)
  | Return (key, db') => (Db.refresh db' key, db')
  end.

(** [setattr(db_product, field, value)] *)
Definition setattr (obj : ProductModel.t) (it : ProductUpdate.item) : ProductModel.t :=
  let '(ProductModel.make i n p d c s ca ua) := obj in
  match it with
  | ProductUpdate.Name v => ProductModel.make i v p d c s ca ua
  | ProductUpdate.Price v => ProductModel.make i n v d c s ca ua
  | ProductUpdate.Description v => ProductModel.make i n p v c s ca ua
  | ProductUpdate.Category v => ProductModel.make i n p d v s ca ua
  | ProductUpdate.InStock v => ProductModel.make i n p d c v ca ua
  end.

(** main.py, lines 161-182 *)
Definition update_product (db : Table) (product_id : Z) (product_update : ProductUpdate.t)
  : Result ProductModel.t * Table :=
  match Db.first (Db.filter (Db.query db) (id_eq product_id)) with
  | None => (Raise (not_found product_id), db)
  | Some db_product =>
      let update_data := ProductUpdate.model_dump_exclude_unset product_update in
      let db_product := fold_left setattr update_data db_product in
      match Db.commit db (negb (is_nil update_data)) db_product with
      | Raise e => (Raise e, db)
      | Return db' => (Db.refresh db' (ProductModel.id db_product), db')
      end
  end.

(** main.py, lines 185-199 *)
Definition delete_product (db : Table) (product_id : Z)
  : Result unit * Table :=
  match Db.first (Db.filter (Db.query db) (id_eq product_id)) with
  | None => (Raise (not_found product_id), db)
  | Some db_product => (Return tt, Db.delete_commit db db_product)
  end.

(** main.py, lines 202-206 *)
Definition list_categories (db : Table) : Result (list (option string)) * Table :=
  (Return (Db.distinct (map ProductModel.category (rows db))), db).

(** The probe [SELECT 1] either answers or raises with a message. *)
Record Env := {
  ping : option string;
  now : timestamp
}.

Inductive Health := healthy (database : string) (at_time : timestamp).

(** main.py, lines 209-222 *)
Definition health_check (env : Env) : Result Health :=
  match ping env with
  | None => Return (healthy "connected" (now env))
  | Some e => Raise (HTTPException 503 ("Database unavailable: " ++ e)%string)
  end.

(** *** Routes: what the decorators and parameter declarations add *)

Record ListQuery := {
  category : option string;
  in_stock : option bool;
  skip : option Z;
  limit : option Z
}.

Inductive Request :=
| GET_root
| GET_products (q : ListQuery)
| GET_product (product_id : Z)
| POST_products (b : ProductCreate.body)
| PUT_product (product_id : Z) (b : ProductUpdate.t)
| DELETE_product (product_id : Z)
| GET_categories
| GET_health.

(** The logical parameters of each operation: the arguments of its handler,
    with a body model spelled out field by field. *)
Definition parameters (req : Request) : list string :=
  match req with
  | GET_root => []
  | GET_products _ => ["category"; "in_stock"; "skip"; "limit"]
  | GET_product _ => ["product_id"]
  | POST_products _ => ["name"; "price"; "description"; "category"; "in_stock"]
  | PUT_product _ _ => ["product_id"; "name"; "price"; "description"; "category"; "in_stock"]
  | DELETE_product _ => ["product_id"]
  | GET_categories => []
  | GET_health => []
  end.

(** Response bodies.  [NoContent] is the empty body of a 204 and
    [InternalServerError] the plain text of a 500; neither is JSON. *)
Inductive Body :=
| Root
| Products (l : list Product.object)
| OneProduct (o : Product.object)
| Categories (l : list (option string))
| HealthReport (h : Health)
| Detail (detail : string)
| ValidationReport (errors : list FieldError)
| NoContent
| InternalServerError.

Record Response := {
  status_code : Z;
  body : Body
}.

Definition unprocessable (errs : list FieldError) : Response :=
  {| status_code := 422; body := ValidationReport errs |}.

Definition server_error : Response :=
  {| status_code := 500; body := InternalServerError |}.

(** The answer to a body that failed validation: 422 with the report.  The
    report repeats the rejected inputs; when one of them is a float that is
    not finite the report cannot be written and the answer is a 500. *)
Definition rejected (echoed : list float) (errs : list FieldError) : Response :=
  if forallb PrimFloat.is_finite echoed then unprocessable errs else server_error.

(** A handler's outcome as a response: the declared status and response
    model on return, the exception's status and detail for an
    [HTTPException], 500 for anything else. *)
Definition respond {A : Type} (status : Z) (model : A -> option Body) (r : Result A) : Response :=
  match r with
  | Return a =>
      match model a with
      | Some b => {| status_code := status; body := b |}
      | None => server_error
      end
  | Raise (HTTPException st detail) => {| status_code := st; body := Detail detail |}
  | Raise _ => server_error
  end.

(** [response_model=List[Product]] *)
Fixpoint product_list (l : list ProductModel.t) : option (list Product.object) :=
  match l with
  | [] => Some []
  | r :: l' =>
      match Product.from_attributes r, product_list l' with
      | Some p, Some ps => Some (Product.model_dump p :: ps)
      | _, _ => None
      end
  end.

(** [Query(0, ge=0)] and [Query(100, ge=1, le=500)] *)
Definition query_errors (skip limit : Z) : list FieldError :=
  (if skip <? 0 then [("skip", "greater_than_equal")] else [])
  ++ (if limit <? 1 then [("limit", "greater_than_equal")] else [])
  ++ (if 500 <? limit then [("limit", "less_than_equal")] else []).

Definition default {A : Type} (d : A) (v : option A) : A :=
  match v with
  | Some a => a
  | None => d
  end.

(** [db: Session = Depends(get_db)]: the handler runs against the table
    when the database answers; otherwise its first statement raises. *)
Definition session {A : Type} (env : Env) (db : Table) (handler : Result A * Table)
  : Result A * Table :=
  match ping env with
  | None => handler
  | Some e => (Raise (OperationalError e), db)
  end.

Definition route_list_products (env : Env) (db : Table) (q : ListQuery) : Response * Table :=
  let skip := default 0 (skip q) in
  let limit := default 100 (limit q) in
  match query_errors skip limit with
  | [] =>
      let (r, db') := session env db (list_products db (category q) (in_stock q) skip limit) in
      (respond 200 (fun l => option_map Products (product_list l)) r, db')
  | errs => (unprocessable errs, db)
  end.

(** [response_model=Product] *)
Definition one_product (r : ProductModel.t) : option Body :=
  option_map (fun p => OneProduct (Product.model_dump p)) (Product.from_attributes r).

Definition route_get_product (env : Env) (db : Table) (product_id : Z) : Response * Table :=
  let (r, db') := session env db (get_product db product_id) in
  (respond 200 one_product r, db').

Definition route_create_product (env : Env) (db : Table) (b : ProductCreate.body)
  : Response * Table :=
  match ProductCreate.validate b with
  | inl errs => (rejected (ProductCreate.echoed b) errs, db)
  | inr product =>
      let (r, db') := session env db (create_product db product) in
      (respond 201 one_product r, db')
  end.

Definition route_update_product (env : Env) (db : Table) (product_id : Z)
    (b : ProductUpdate.t) : Response * Table :=
  match ProductUpdate.validate b with
  | inl errs => (rejected (ProductUpdate.echoed b) errs, db)
  | inr product_update =>
      let (r, db') := session env db (update_product db product_id product_update) in
      (respond 200 one_product r, db')
  end.

Definition route_delete_product (env : Env) (db : Table) (product_id : Z) : Response * Table :=
  let (r, db') := session env db (delete_product db product_id) in
  (respond 204 (fun _ => Some NoContent) r, db').

Definition route_list_categories (env : Env) (db : Table) : Response * Table :=
  let (r, db') := session env db (list_categories db) in
  (respond 200 (fun l => Some (Categories l)) r, db').

Definition route_health_check (env : Env) (db : Table) : Response * Table :=
  (respond 200 (fun h => Some (HealthReport h)) (health_check env), db).

(** The application: one request against the table. *)
Definition app (env : Env) (db : Table) (req : Request) : Response * Table :=
  match req with
  | GET_root => ({| status_code := 200; body := Root |}, db)
  | GET_products q => route_list_products env db q
  | GET_product product_id => route_get_product env db product_id
  | POST_products b => route_create_product env db b
  | PUT_product product_id b => route_update_product env db product_id b
  | DELETE_product product_id => route_delete_product env db product_id
  | GET_categories => route_list_categories env db
  | GET_health => route_health_check env db
  end.

End Api.

(** ** The tool proxy (mcp_server.py) *)

Module Mcp.

(** What [httpx] raises; both are [httpx.HTTPError]. *)
Inductive HTTPError :=
| HTTPStatusError (status_code : Z) (msg : string)
| RequestError (msg : string).

Inductive PyError :=
| Httpx (e : HTTPError)
| JSONDecodeError
| ValueError.

Inductive Outcome (A : Type) :=
| Returns (a : A)
| Raises (e : PyError).
Arguments Returns {A} a.
Arguments Raises {A} e.

(** [str(e)] *)
Definition str_error (e : HTTPError) : string :=
  match e with
  | HTTPStatusError _ msg => msg
  | RequestError msg => msg
  end.

(** The value a tool hands back: the decoded payload of the service, the
    dictionary [{"error": ...}], or [{"success": True, "message": ...}]. *)
Inductive Payload :=
| Relayed (b : Api.Body)
| Error (error : string)
| Success (message : string).

(** Whether the client can write the request: the [json=] body of a create
    or an update must hold no float that is not finite, or the encoder
    raises [ValueError] before anything is sent. *)
Definition encodable (req : Api.Request) : bool :=
  match req with
  | Api.POST_products b =>
      match ProductCreate.b_price b with
      | Some p => PrimFloat.is_finite p
      | None => true
      end
  | Api.PUT_product _ u =>
      match ProductUpdate.price u with
      | Some (Some p) => PrimFloat.is_finite p
      | _ => true
      end
  | _ => true
  end.

Section Client.

(** The state behind the connection; the proxy itself keeps none. *)
Variable S : Type.

(** [httpx.AsyncClient(timeout=10.0)]: a request is answered, or fails in
    transport (timeout, refused connection) with a message. *)
Variable send : S -> Api.Request -> (Api.Response + string) * S.

(** The text [httpx] gives a status error. *)
Variable reason : Z -> string.

(** [response.raise_for_status()] *)
Definition raise_for_status (r : Api.Response) : Outcome Api.Response :=
  if (200 <=? Api.status_code r) && (Api.status_code r <? 300) then Returns r
  else Raises (Httpx (HTTPStatusError (Api.status_code r) (reason (Api.status_code r)))).

(** [response.json()] *)
Definition json (r : Api.Response) : Outcome Api.Body :=
  match Api.body r with
  | Api.NoContent | Api.InternalServerError => Raises JSONDecodeError
  | b => Returns b
  end.

(** [await client.request(...)] followed by [raise_for_status()].  The
    client encodes the body first; nothing is sent when that fails. *)
Definition request (s : S) (req : Api.Request) : Outcome Api.Response * S :=
  if encodable req then
    match send s req with
    | (inl response, s') => (raise_for_status response, s')
    | (inr msg, s') => (Raises (Httpx (RequestError msg)), s')
    end
  else (Raises ValueError, s).

(** The common body of the [try] blocks that end in [return response.json()]. *)
Definition fetch (s : S) (req : Api.Request) : Outcome Api.Body * S :=
  match request s req with
  | (Returns response, s') => (json response, s')
  | (Raises e, s') => (Raises e, s')
  end.

(** [except httpx.HTTPError as e: return {"error": f"<prefix>{str(e)}"}] *)
Definition except_HTTPError (prefix : string) (r : Outcome Payload) : Outcome Payload :=
  match r with
  | Raises (Httpx e) => Returns (Error (prefix ++ str_error e)%string)
  | _ => r
  end.

(** [except httpx.HTTPStatusError] with the 404 case, then
    [except httpx.HTTPError]. *)
Definition except_status_then_HTTPError (product_id : Z) (prefix : string)
    (r : Outcome Payload) : Outcome Payload :=
  match r with
  | Raises (Httpx (HTTPStatusError st msg)) =>
      if st =? 404 then Returns (Error ("Product " ++ str_int product_id ++ " not found")%string)
      else Returns (Error (prefix ++ msg)%string)
  | Raises (Httpx (RequestError msg)) => Returns (Error ("Connection error: " ++ msg)%string)
  | _ => r
  end.

Definition relay (r : Outcome Api.Body) : Outcome Payload :=
  match r with
  | Returns b => Returns (Relayed b)
  | Raises e => Raises e
  end.

Definition list_products_request (category : option string) (in_stock : option bool)
    (limit : Z) : Api.Request :=
  Api.GET_products
    {| Api.category := if truthy category then category else None;
       Api.in_stock := in_stock;
       Api.skip := None;
       Api.limit := Some limit |}.

(** mcp_server.py, lines 11-37 *)
Definition list_products (s : S) (category : option string) (in_stock : option bool)
    (limit : Z) : Outcome Payload * S :=
  let (r, s') := fetch s (list_products_request category in_stock limit) in
  (except_HTTPError "Failed to fetch products: " (relay r), s').

(** mcp_server.py, lines 40-58 *)
Definition get_product (s : S) (product_id : Z) : Outcome Payload * S :=
  let (r, s') := fetch s (Api.GET_product product_id) in
  (except_status_then_HTTPError product_id "Failed to fetch product: " (relay r), s').

Definition create_product_request (name : string) (price : float)
    (description : option string) (category : string) (in_stock : bool) : Api.Request :=
  Api.POST_products
    (ProductCreate.make_body (Some name) (Some price) description (Some category) (Some in_stock)).

(** mcp_server.py, lines 61-96 *)
Definition create_product (s : S) (name : string) (price : float)
    (description : option string) (category : string) (in_stock : bool)
  : Outcome Payload * S :=
  let (r, s') := fetch s (create_product_request name price description category in_stock) in
  (except_HTTPError "Failed to create product: " (relay r), s').

(** [if v is not None: update_data[key] = v] *)
Definition given {A : Type} (v : option A) : option (option A) :=
  match v with
  | Some a => Some (Some a)
  | None => None
  end.

Definition update_product_request (product_id : Z) (name : option string)
    (price : option float) (description category : option string)
    (in_stock : option bool) : Api.Request :=
  Api.PUT_product product_id
    (ProductUpdate.make (given name) (given price) (given description)
                        (given category) (given in_stock)).

(** mcp_server.py, lines 99-144 *)
Definition update_product (s : S) (product_id : Z) (name : option string)
    (price : option float) (description category : option string)
    (in_stock : option bool) : Outcome Payload * S :=
  let (r, s') :=
    fetch s (update_product_request product_id name price description category in_stock) in
  (except_status_then_HTTPError product_id "Failed to update product: " (relay r), s').

(** mcp_server.py, lines 147-165 *)
Definition delete_product (s : S) (product_id : Z) : Outcome Payload * S :=
  let (r, s') := request s (Api.DELETE_product product_id) in
  (except_status_then_HTTPError product_id "Failed to delete product: "
     match r with
     | Returns _ => Returns (Success ("Product " ++ str_int product_id ++ " deleted")%string)
     | Raises e => Raises e
     end, s').

(** mcp_server.py, lines 168-179 *)
Definition get_categories (s : S) : Outcome Payload * S :=
  let (r, s') := fetch s Api.GET_categories in
  (except_HTTPError "Failed to fetch categories: " (relay r), s').

End Client.

(** The functions registered with [@mcp.tool()], each with its arguments. *)
Inductive ToolCall :=
| call_list_products (category : option string) (in_stock : option bool) (limit : Z)
| call_get_product (product_id : Z)
| call_create_product (name : string) (price : float) (description : option string)
    (category : string) (in_stock : bool)
| call_update_product (product_id : Z) (name : option string) (price : option float)
    (description category : option string) (in_stock : option bool)
| call_delete_product (product_id : Z)
| call_get_categories.

(** The registered name and parameter names of a tool. *)
Definition signature (c : ToolCall) : string * list string :=
  match c with
  | call_list_products _ _ _ => ("list_products", ["category"; "in_stock"; "limit"])
  | call_get_product _ => ("get_product", ["product_id"])
  | call_create_product _ _ _ _ _ =>
      ("create_product", ["name"; "price"; "description"; "category"; "in_stock"])
  | call_update_product _ _ _ _ _ _ =>
      ("update_product", ["product_id"; "name"; "price"; "description"; "category"; "in_stock"])
  | call_delete_product _ => ("delete_product", ["product_id"])
  | call_get_categories => ("get_categories", [])
  end.

(** The one request a tool call sends. *)
Definition request_of (c : ToolCall) : Api.Request :=
  match c with
  | call_list_products category in_stock limit => list_products_request category in_stock limit
  | call_get_product product_id => Api.GET_product product_id
  | call_create_product name price description category in_stock =>
      create_product_request name price description category in_stock
  | call_update_product product_id name price description category in_stock =>
      update_product_request product_id name price description category in_stock
  | call_delete_product product_id => Api.DELETE_product product_id
  | call_get_categories => Api.GET_categories
  end.

Definition invoke {S : Type} (send : S -> Api.Request -> (Api.Response + string) * S)
    (reason : Z -> string) (s : S) (c : ToolCall) : Outcome Payload * S :=
  match c with
  | call_list_products category in_stock limit =>
      list_products S send reason s category in_stock limit
  | call_get_product product_id => get_product S send reason s product_id
  | call_create_product name price description category in_stock =>
      create_product S send reason s name price description category in_stock
  | call_update_product product_id name price description category in_stock =>
      update_product S send reason s product_id name price description category in_stock
  | call_delete_product product_id => delete_product S send reason s product_id
  | call_get_categories => get_categories S send reason s
  end.

(** The proxy wired to the service: the link either carries the request to
    [Api.app] and the response back, or fails with a transport error. *)
Inductive Link :=
| Up
| Down (msg : string)
| Lost (msg : string).

(** [Down]: the request never arrives.  [Lost]: the service handles the
    request and the response does not come back in time. *)
Definition wire (env : Api.Env) (link : Link) (db : Db.Table) (req : Api.Request)
  : (Api.Response + string) * Db.Table :=
  match link with
  | Up => let (response, db') := Api.app env db req in (inl response, db')
  | Down msg => (inr msg, db)
  | Lost msg => let (_, db') := Api.app env db req in (inr msg, db')
  end.

End Mcp.

(** ** The List operation in the words of the specification *)

Module Spec.

(** An equality filter that is given selects the records whose attribute
    equals it; a filter that is not given selects every record. *)
Definition matches (category : option string) (in_stock : option bool)
    (r : ProductModel.t) : bool :=
  match category with
  | Some c =>
      match ProductModel.category r with
      | Some c' => String.eqb c' c
      | None => false
      end
  | None => true
  end
  &&
  match in_stock with
  | Some b =>
      match ProductModel.in_stock r with
      | Some b' => Bool.eqb b' b
      | None => false
      end
  | None => true
  end.

(** Ordering by identifier ascending: a stable insertion sort. *)
Fixpoint insert_by_id (r : ProductModel.t) (l : list ProductModel.t) : list ProductModel.t :=
  match l with
  | [] => [r]
  | x :: l' =>
      if ProductModel.id r <=? ProductModel.id x then r :: l
      else x :: insert_by_id r l'
  end.

Fixpoint order_by_id (l : list ProductModel.t) : list ProductModel.t :=
  match l with
  | [] => []
  | r :: l' => insert_by_id r (order_by_id l')
  end.

(** Filter, order, drop [skip], keep at most [limit]. *)
Definition page (records : list ProductModel.t) (category : option string)
    (in_stock : option bool) (skip limit : Z) : list ProductModel.t :=
  firstn (Z.to_nat limit)
    (skipn (Z.to_nat skip)
       (order_by_id (List.filter (matches category in_stock) records))).

End Spec.

(** ** Sample data *)

Definition widget : ProductCreate.body :=
  ProductCreate.make_body (Some "Widget") (Some 9.5%float) None None None.

Definition gadget (category : string) (in_stock : bool) : ProductCreate.body :=
  ProductCreate.make_body (Some "Gadget") (Some 12.5%float) (Some "A gadget")
    (Some category) (Some in_stock).

(** A sequence of requests against the service, one after the other. *)
Definition run (env : Api.Env) (db : Db.Table) (reqs : list Api.Request) : Db.Table :=
  fold_left (fun d req => snd (Api.app env d req)) reqs db.

(** The same, each request under the conditions it met. *)
Definition replay (db : Db.Table) (history : list (Api.Env * Api.Request)) : Db.Table :=
  fold_left (fun d step => snd (Api.app (fst step) d (snd step))) history db.

Definition widget_product : ProductCreate.t :=
  ProductCreate.make "Widget" 9.5%float None "General" true.

Definition online : Api.Env := {| Api.ping := None; Api.now := 1700000000 |}.

Definition one_widget : Db.Table := run online Db.empty [Api.POST_products widget].

Definition five_products : Db.Table :=
  run online Db.empty
    [Api.POST_products widget;
     Api.POST_products (gadget "Tools" true);
     Api.POST_products (gadget "" false);
     Api.POST_products (gadget "Tools" false);
     Api.POST_products widget].

(** ** Vocabulary of the statements *)

(** The row [create_product] inserts for a validated body, given its key. *)
Definition created (key : Z) (product : ProductCreate.t) : ProductModel.t :=
  ProductModel.make key
    (Some (ProductCreate.name product)) (Some (ProductCreate.price product))
    (ProductCreate.description product)
    (Some (ProductCreate.category product)) (Some (ProductCreate.in_stock product))
    None None.

Definition inserted (db : Db.Table) (product : ProductCreate.t) : Db.Table :=
  {| Db.rows := Db.rows db ++ [created (Db.next_id db) product];
     Db.next_id := Db.next_id db + 1 |}.

(** The list a handler returned; empty when it raised. *)
Definition returned {A : Type} (r : Result (list A) * Db.Table) : list A :=
  match fst r with
  | Return l => l
  | Raise _ => []
  end.

(** An identifier that was never handed out: not positive, or not below
    the counter. *)
Definition never_created (db : Db.Table) (k : Z) : Prop :=
  Db.wf db /\ (k <= 0 \/ Db.next_id db <= k).

(** An identifier that a Delete removed at some point of the table's past. *)
Definition already_deleted (db : Db.Table) (k : Z) : Prop :=
  exists db0 db1 history,
    Db.wf db0 /\ Api.delete_product db0 k = (Return tt, db1) /\ db = replay db1 history.

(** A text field that is present and longer than its bound. *)
Definition oversize (bound : Z) (field : option string) : Prop :=
  exists s, field = Some s /\ bound < len s.

(** A creation body with a non-positive price, an empty name, or a text
    field over its bound. *)
Definition invalid_create (b : ProductCreate.body) : Prop :=
  (exists p, ProductCreate.b_price b = Some p /\ PrimFloat.leb p 0%float = true)
  \/ ProductCreate.b_name b = Some ""
  \/ oversize 100 (ProductCreate.b_name b)
  \/ oversize 500 (ProductCreate.b_description b)
  \/ oversize 50 (ProductCreate.b_category b).

(** A column after a patch: the patch's value when the field was set, the
    stored value otherwise. *)
Definition patched {A : Type} (field : option (option A)) (stored : option A) : option A :=
  match field with
  | Some v => v
  | None => stored
  end.



(** What a request may do to the table: it stays well formed, the counter
    does not go down, and no key below the counter comes back into use. *)
Definition evolves (db db' : Db.Table) : Prop :=
  Db.wf db'
  /\ Db.next_id db <= Db.next_id db'
  /\ forall k, k < Db.next_id db -> ~ In k (Db.ids db) -> ~ In k (Db.ids db').

(** A request of the service is exposed by the proxy when some tool call
    sends it and the tool takes the operation's logical parameters. *)
Definition exposes (req : Api.Request) : Prop :=
  exists c, Mcp.request_of c = req /\ snd (Mcp.signature c) = Api.parameters req.

(** The category filter List applies: the one given, unless it is empty. *)
Definition applied (category : option string) : option string :=
  if truthy category then category else None.

(** OFFSET and LIMIT over a list: drop [skip], keep at most [limit]; a
    negative limit keeps everything. *)
Definition window {A : Type} (skip limit : Z) (l : list A) : list A :=
  let rest := skipn (Z.to_nat skip) l in
  if limit <? 0 then rest else firstn (Z.to_nat limit) rest.

(** A stored record the response model can represent. *)
Definition representable (r : ProductModel.t) : Prop :=
  Product.from_attributes r <> None.

(** A price, when there is one, is a finite number. *)
Definition finite_price (price : option float) : Prop :=
  forall p, price = Some p -> PrimFloat.is_finite p = true.

(** Requests that only read: everything but create, update and delete. *)
Definition reads (req : Api.Request) : bool :=
  match req with
  | Api.POST_products _ | Api.PUT_product _ _ | Api.DELETE_product _ => false
  | _ => true
  end.

(** A status in the 2xx range. *)
Definition is_success (status : Z) : bool :=
  (200 <=? status) && (status <? 300).

(** Bodies that decode as JSON. *)
Definition is_json (b : Api.Body) : bool :=
  match b with
  | Api.NoContent | Api.InternalServerError => false
  | _ => true
  end.

(** A handler outcome whose exception, if it is an [HTTPException], does not
    carry a 2xx status. *)
Definition fails_properly {A : Type} (r : Result A) : Prop :=
  forall st detail, r = Raise (HTTPException st detail) -> is_success st = false.

(** The proxy wired to the service over a working link. *)
Definition direct (env : Api.Env) : Db.Table -> Api.Request -> (Api.Response + string) * Db.Table :=
  Mcp.wire env Mcp.Up.

(** A patch that sets its field to an explicit null. *)
Definition nulled {A : Type} (field : option (option A)) : Prop :=
  field = Some None.

(** What the record with key [k] is, as Get sees it. *)
Definition stored (db : Db.Table) (k : Z) : Result ProductModel.t :=
  fst (Api.get_product db k).

(** Well-formedness of a concrete table, by evaluation. *)
Ltac table_wf :=
  unfold Db.wf; split; [|split]; vm_compute; repeat constructor.

(** * Properties *)

(** ** Looking a row up by key *)

Lemma selected_one (l : list ProductModel.t) (c : ProductModel.t -> bool) :
  Db.selected {| Db.source := l; Db.criteria := [c]; Db.q_offset := 0%nat; Db.q_limit := None |}
  = List.filter c l.
Proof.
  unfold Db.selected; simpl. apply filter_ext. intro r. now rewrite andb_true_r.
Qed.

Lemma hd_filter_find {A : Type} (f : A -> bool) (l : list A) :
  hd_error (List.filter f l) = find f l.
Proof.
  induction l as [|a l IH]; simpl; [reflexivity|].
  destruct (f a); [reflexivity | exact IH].
Qed.

Lemma first_by_id (db : Db.Table) (k : Z) :
  Db.first (Db.filter (Db.query db) (Db.id_eq k)) = find (Db.id_eq k) (Db.rows db).
Proof.
  unfold Db.first, Db.filter, Db.query. simpl.
  rewrite selected_one. apply hd_filter_find.
Qed.

Lemma find_absent (l : list ProductModel.t) (k : Z) :
  ~ In k (map ProductModel.id l) -> find (Db.id_eq k) l = None.
Proof.
  induction l as [|r l IH]; simpl; intro H; [reflexivity|].
  unfold Db.id_eq at 1. destruct (Z.eqb_spec (ProductModel.id r) k) as [E|E].
  - exfalso. apply H. now left.
  - apply IH. intro HI. apply H. now right.
Qed.

Lemma find_present (l : list ProductModel.t) (k : Z) (r : ProductModel.t) :
  find (Db.id_eq k) l = Some r -> In r l /\ ProductModel.id r = k.
Proof.
  intro H. apply find_some in H. destruct H as [HI HE]. split; [exact HI|].
  unfold Db.id_eq in HE. now apply Z.eqb_eq.
Qed.

Lemma find_app_fresh (l : list ProductModel.t) (r : ProductModel.t) :
  ~ In (ProductModel.id r) (map ProductModel.id l) ->
  find (Db.id_eq (ProductModel.id r)) (l ++ [r]) = Some r.
Proof.
  induction l as [|x l IH]; simpl; intro H.
  - unfold Db.id_eq. now rewrite Z.eqb_refl.
  - unfold Db.id_eq at 1. destruct (Z.eqb_spec (ProductModel.id x) (ProductModel.id r)) as [E|E].
    + exfalso. apply H. now left.
    + apply IH. intro HI. apply H. now right.
Qed.

(** After UPDATE by key, the key finds the object that was written. *)
Lemma find_replaced (l : list ProductModel.t) (r obj : ProductModel.t) :
  find (Db.id_eq (ProductModel.id obj)) l = Some r ->
  find (Db.id_eq (ProductModel.id obj))
       (map (fun x => if Db.id_eq (ProductModel.id obj) x then obj else x) l) = Some obj.
Proof.
  induction l as [|x l IH]; simpl; [discriminate|].
  destruct (Db.id_eq (ProductModel.id obj) x) eqn:E.
  - intros _. unfold Db.id_eq. now rewrite Z.eqb_refl.
  - rewrite E. exact IH.
Qed.

(** ** The invariant of the table *)

Lemma wf_empty : Db.wf Db.empty.
Proof. repeat split; constructor. Qed.

Lemma wf_fresh (db : Db.Table) (k : Z) :
  Db.wf db -> k <= 0 \/ Db.next_id db <= k -> ~ In k (Db.ids db).
Proof.
  intros (_ & Hb & _) Hk HI. rewrite Forall_forall in Hb. apply Hb in HI. lia.
Qed.

Lemma sorted_snoc (l : list Z) (k : Z) :
  StronglySorted Z.lt l -> Forall (fun x => x < k) l -> StronglySorted Z.lt (l ++ [k]).
Proof.
  induction 1 as [|a l HS IH HF]; intro Hb; simpl.
  - repeat constructor.
  - inversion Hb; subst. constructor; [now apply IH|].
    apply Forall_app. split; [exact HF | now constructor].
Qed.

Lemma wf_insert (db : Db.Table) (r : ProductModel.t) :
  Db.wf db -> ProductModel.id r = Db.next_id db ->
  Db.wf {| Db.rows := Db.rows db ++ [r]; Db.next_id := Db.next_id db + 1 |}.
Proof.
  intros (Hs & Hb & Hp) Hid. unfold Db.wf, Db.ids in *. simpl. rewrite map_app. simpl.
  split; [|split; [|lia]].
  - rewrite Hid. apply sorted_snoc; [exact Hs|].
    eapply Forall_impl; [|exact Hb]. simpl. intros; lia.
  - apply Forall_app. split.
    + eapply Forall_impl; [|exact Hb]. simpl. intros; lia.
    + constructor; [lia | constructor].
Qed.

Lemma ids_replaced (l : list ProductModel.t) (obj : ProductModel.t) :
  map ProductModel.id (map (fun x => if Db.id_eq (ProductModel.id obj) x then obj else x) l)
  = map ProductModel.id l.
Proof.
  induction l as [|x l IH]; simpl; [reflexivity|]. rewrite IH. f_equal.
  destruct (Db.id_eq (ProductModel.id obj) x) eqn:E; [|reflexivity].
  unfold Db.id_eq in E. apply Z.eqb_eq in E. now symmetry.
Qed.

Lemma sorted_filter (f : ProductModel.t -> bool) (l : list ProductModel.t) :
  StronglySorted Z.lt (map ProductModel.id l) ->
  StronglySorted Z.lt (map ProductModel.id (List.filter f l)).
Proof.
  induction l as [|x l IH]; simpl; intro H; [constructor|].
  inversion H as [|? ? HS HF]; subst.
  destruct (f x); simpl; [|now apply IH].
  constructor; [now apply IH|].
  rewrite Forall_forall in *. intros k Hk. apply HF.
  rewrite in_map_iff in *. destruct Hk as (y & Hy & HI). exists y. split; [exact Hy|].
  apply filter_In in HI. tauto.
Qed.

Lemma bound_filter (f : ProductModel.t -> bool) (l : list ProductModel.t) (n : Z) :
  Forall (fun k => 0 < k < n) (map ProductModel.id l) ->
  Forall (fun k => 0 < k < n) (map ProductModel.id (List.filter f l)).
Proof.
  rewrite !Forall_forall. intros H k Hk. apply H.
  rewrite in_map_iff in *. destruct Hk as (y & Hy & HI). exists y. split; [exact Hy|].
  apply filter_In in HI. tauto.
Qed.

(** ** What each handler does to the table *)

Lemma create_product_row (db : Db.Table) (product : ProductCreate.t) :
  Db.wf db ->
  Api.create_product db product
  = (Return (created (Db.next_id db) product), inserted db product).
Proof.
  intro W. unfold Api.create_product, Db.add_commit. simpl.
  unfold Db.refresh. rewrite first_by_id. simpl.
  change (Db.next_id db) with (ProductModel.id (created (Db.next_id db) product)) at 1.
  rewrite find_app_fresh; [reflexivity|].
  simpl. apply (wf_fresh db); [exact W | right; lia].
Qed.

Lemma wf_delete (db : Db.Table) (r : ProductModel.t) :
  Db.wf db -> Db.wf (Db.delete_commit db r).
Proof.
  intros (Hs & Hb & Hp). unfold Db.wf, Db.ids, Db.delete_commit in *. simpl.
  split; [now apply sorted_filter | split; [now apply bound_filter | exact Hp]].
Qed.

Lemma evolves_refl (db : Db.Table) : Db.wf db -> evolves db db.
Proof. intro W. split; [exact W | split; [lia | auto]]. Qed.

Lemma evolves_trans (a b c : Db.Table) : evolves a b -> evolves b c -> evolves a c.
Proof.
  intros (_ & N1 & A1) (W2 & N2 & A2). split; [exact W2|]. split; [lia|].
  intros k Hk Ha. apply A2; [lia | now apply A1].
Qed.

Lemma create_product_evolves (db : Db.Table) (product : ProductCreate.t) :
  Db.wf db -> evolves db (snd (Api.create_product db product)).
Proof.
  intro W. rewrite (create_product_row db product W). simpl.
  split; [apply wf_insert; [exact W | reflexivity]|]. split; [simpl; lia|].
  intros k Hk Hn. unfold Db.ids, inserted. simpl. rewrite map_app, in_app_iff. simpl.
  intros [HI | [HI | []]]; [now apply Hn | lia].
Qed.

Lemma update_product_evolves (db : Db.Table) (k : Z) (u : ProductUpdate.t) :
  Db.wf db -> evolves db (snd (Api.update_product db k u)).
Proof.
  intro W. unfold Api.update_product.
  destruct (Db.first _) as [r|]; [|now apply evolves_refl].
  unfold Db.commit.
  destruct (negb _); [|now apply evolves_refl].
  destruct (ProductModel.not_null _); [|now apply evolves_refl].
  simpl. unfold evolves, Db.wf, Db.ids in *. simpl. rewrite ids_replaced.
  split; [exact W | split; [lia | auto]].
Qed.

Lemma delete_product_evolves (db : Db.Table) (k : Z) :
  Db.wf db -> evolves db (snd (Api.delete_product db k)).
Proof.
  intro W. unfold Api.delete_product.
  destruct (Db.first _) as [r|]; [|now apply evolves_refl]. simpl.
  split; [now apply wf_delete|]. split; [simpl; lia|].
  intros j Hj Ha HI. apply Ha. unfold Db.ids, Db.delete_commit in *. simpl in HI.
  rewrite in_map_iff in *. destruct HI as (y & Hy & HI). exists y. split; [exact Hy|].
  apply filter_In in HI. tauto.
Qed.

Lemma session_up {A : Type} (env : Api.Env) (db : Db.Table) (h : Result A * Db.Table) :
  Api.ping env = None -> Api.session env db h = h.
Proof. unfold Api.session. now intros ->. Qed.

Lemma session_evolves {A : Type} (env : Api.Env) (db : Db.Table) (h : Result A * Db.Table) :
  Db.wf db -> evolves db (snd h) -> evolves db (snd (Api.session env db h)).
Proof.
  intros W H. unfold Api.session. destruct (Api.ping env); [now apply evolves_refl | exact H].
Qed.

(** The table a route leaves is the one its handler left. *)
Lemma served {A : Type} (h : Result A * Db.Table) (f : Result A -> Api.Response) :
  snd (let (r, db') := h in (f r, db')) = snd h.
Proof. now destruct h. Qed.

Lemma app_evolves (env : Api.Env) (db : Db.Table) (req : Api.Request) :
  Db.wf db -> evolves db (snd (Api.app env db req)).
Proof.
  intro W. pose proof (evolves_refl db W) as Same.
  destruct req as [|q|k|b|k u|k| |]; simpl; try exact Same.
  - unfold Api.route_list_products. destruct (Api.query_errors _ _); [|exact Same].
    rewrite served. now apply session_evolves.
  - unfold Api.route_get_product. rewrite served. apply session_evolves; [exact W|].
    unfold Api.get_product. now destruct (Db.first _).
  - unfold Api.route_create_product.
    destruct (ProductCreate.validate b) as [errs|product]; [exact Same|].
    rewrite served. apply session_evolves; [exact W | now apply create_product_evolves].
  - unfold Api.route_update_product.
    destruct (ProductUpdate.validate u) as [errs|pu]; [exact Same|].
    rewrite served. apply session_evolves; [exact W | now apply update_product_evolves].
  - unfold Api.route_delete_product.
    rewrite served. apply session_evolves; [exact W | now apply delete_product_evolves].
  - unfold Api.route_list_categories. rewrite served. now apply session_evolves.
Qed.

Lemma replay_evolves (history : list (Api.Env * Api.Request)) (db : Db.Table) :
  Db.wf db -> evolves db (replay db history).
Proof.
  revert db. induction history as [|[env req] history IH]; intros db W.
  - now apply evolves_refl.
  - change (replay db ((env, req) :: history))
      with (replay (snd (Api.app env db req)) history).
    pose proof (app_evolves env db req W) as E.
    eapply evolves_trans; [exact E|]. apply IH. now destruct E.
Qed.

Lemma run_replay (env : Api.Env) (reqs : list Api.Request) (db : Db.Table) :
  run env db reqs = replay db (map (pair env) reqs).
Proof.
  revert db. induction reqs as [|req reqs IH]; intro db; [reflexivity|].
  simpl. apply IH.
Qed.

Lemma run_evolves (env : Api.Env) (reqs : list Api.Request) (db : Db.Table) :
  Db.wf db -> evolves db (run env db reqs).
Proof. rewrite run_replay. apply replay_evolves. Qed.

(** A key that was deleted is no longer in the table. *)
Lemma deleted_absent (db db' : Db.Table) (k : Z) :
  Api.delete_product db k = (Return tt, db') -> ~ In k (Db.ids db').
Proof.
  unfold Api.delete_product. rewrite first_by_id.
  destruct (find _ _) as [r|] eqn:F; [|discriminate].
  intro H. inversion H; subst. apply find_present in F. destruct F as [_ Hid].
  unfold Db.ids, Db.delete_commit. simpl. rewrite in_map_iff.
  intros (y & Hy & HI). apply filter_In in HI. destruct HI as [_ HI].
  unfold Db.id_eq in HI. rewrite Hy, Hid, Z.eqb_refl in HI. discriminate.
Qed.

(** ** Get and Delete on a missing identifier *)

Lemma absent_not_found (db : Db.Table) (k : Z) :
  ~ In k (Db.ids db) ->
  Api.get_product db k = (Raise (Api.not_found k), db)
  /\ Api.delete_product db k = (Raise (Api.not_found k), db).
Proof.
  intro H. unfold Api.get_product, Api.delete_product. rewrite first_by_id.
  rewrite (find_absent _ _ H). now split.
Qed.

Lemma missing_absent (db : Db.Table) (k : Z) :
  never_created db k \/ already_deleted db k -> ~ In k (Db.ids db).
Proof.
  intros [[W Hk] | (db0 & db1 & history & W & Hd & ->)].
  - now apply wf_fresh.
  - pose proof (delete_product_evolves db0 k W) as (W1 & _). rewrite Hd in W1. simpl in W1.
    assert (Hk : k < Db.next_id db1).
    { unfold Api.delete_product in Hd. rewrite first_by_id in Hd.
      destruct (find _ _) as [r|] eqn:F; [|discriminate].
      inversion Hd; subst. apply find_present in F. destruct F as [HI Hid].
      destruct W as (_ & Hb & _). rewrite Forall_forall in Hb.
      simpl. apply Hb. unfold Db.ids. rewrite <- Hid. now apply in_map. }
    destruct (replay_evolves history db1 W1) as (_ & _ & A).
    apply A; [exact Hk | now apply (deleted_absent db0)].
Qed.

(** C8.  For an identifier that was never created, or that a Delete has
    removed, Get and Delete each raise the 404 exception whose detail is
    "Product <id> not found" with that identifier, and the table is left as
    it was; served by a database that answers, the two routes respond with
    status 404 and that detail. *)
Theorem get_delete_missing (env : Api.Env) (db : Db.Table) (product_id : Z) :
  never_created db product_id \/ already_deleted db product_id ->
  let detail := ("Product " ++ str_int product_id ++ " not found")%string in
  Api.get_product db product_id = (Raise (HTTPException 404 detail), db)
  /\ Api.delete_product db product_id = (Raise (HTTPException 404 detail), db)
  /\ (Api.ping env = None ->
      Api.route_get_product env db product_id
      = ({| Api.status_code := 404; Api.body := Api.Detail detail |}, db)
      /\ Api.route_delete_product env db product_id
         = ({| Api.status_code := 404; Api.body := Api.Detail detail |}, db)).
Proof.
  intros H detail. apply missing_absent in H.
  destruct (absent_not_found db product_id H) as [G D].
  split; [exact G|]. split; [exact D|]. intro P.
  unfold Api.route_get_product, Api.route_delete_product.
  rewrite !session_up by exact P. rewrite G, D. split; reflexivity.
Qed.

Lemma get_delete_missing_witness :
  (Api.get_product five_products 9
     = (Raise (HTTPException 404 "Product 9 not found"), five_products)
   /\ Api.delete_product five_products 9
     = (Raise (HTTPException 404 "Product 9 not found"), five_products))
  /\ Api.get_product (run online one_widget [Api.DELETE_product 1; Api.POST_products widget]) 1
     = (Raise (HTTPException 404 "Product 1 not found"),
        run online one_widget [Api.DELETE_product 1; Api.POST_products widget]).
Proof.
  split.
  - assert (N : never_created five_products 9 \/ already_deleted five_products 9).
    { left. split; [table_wf | right; vm_compute; discriminate]. }
    destruct (get_delete_missing online five_products 9 N) as (G & D & _).
    split; [exact G | exact D].
  - assert (N : never_created (run online one_widget [Api.DELETE_product 1; Api.POST_products widget]) 1
                \/ already_deleted (run online one_widget [Api.DELETE_product 1; Api.POST_products widget]) 1).
    { right. exists one_widget, (run online one_widget [Api.DELETE_product 1]),
        [(online, Api.POST_products widget)].
      split; [table_wf | split; reflexivity]. }
    destruct (get_delete_missing online _ 1 N) as (G & _). exact G.
Defined.

(** ** Update: what it writes and what it leaves *)

Lemma get_product_found (db : Db.Table) (k : Z) (row : ProductModel.t) :
  Api.get_product db k = (Return row, db) ->
  find (Db.id_eq k) (Db.rows db) = Some row /\ ProductModel.id row = k.
Proof.
  unfold Api.get_product. rewrite first_by_id.
  destruct (find _ _) as [r|] eqn:F; [|discriminate].
  intro H. inversion H; subst. split; [reflexivity|].
  now apply find_present in F.
Qed.

(** The claim of C1 fails on the code: after the one product of
    [one_widget] is updated with the empty patch, the record that comes back
    carries no modification time at all. *)
Lemma update_empty_patch_sets_no_time :
  ~ exists (now : timestamp) (r : ProductModel.t) (db' : Db.Table),
      Api.update_product one_widget 1 ProductUpdate.empty = (Return r, db')
      /\ ProductModel.updated_at r = Some now.
Proof.
  intros (now & r & db' & H & U). vm_compute in H. inversion H; subst.
  discriminate U.
Qed.

(** The assignments of a patch, field by field. *)
Lemma assignments_apply (patch : ProductUpdate.t) (row : ProductModel.t) :
  fold_left Api.setattr (ProductUpdate.model_dump_exclude_unset patch) row
  = ProductModel.make (ProductModel.id row)
      (patched (ProductUpdate.name patch) (ProductModel.name row))
      (patched (ProductUpdate.price patch) (ProductModel.price row))
      (patched (ProductUpdate.description patch) (ProductModel.description row))
      (patched (ProductUpdate.category patch) (ProductModel.category row))
      (patched (ProductUpdate.in_stock patch) (ProductModel.in_stock row))
      (ProductModel.created_at row) (ProductModel.updated_at row).
Proof.
  destruct row, patch as [n p d c s].
  destruct n, p, d, c, s; reflexivity.
Qed.

(** C1 (amended).  For every existing product, Update with the empty patch
    returns the record exactly as it is stored, the modification timestamp
    included, and leaves the table as it was; and whatever the patch, a
    successful Update returns the stored record with the fields the patch
    set overwritten and every other field, the identifier and both
    timestamps among them, as stored: the handler assigns the fields of the
    patch and never a timestamp. *)
Theorem update_product_frame (db : Db.Table) (product_id : Z)
    (row : ProductModel.t) (patch : ProductUpdate.t) :
  Api.get_product db product_id = (Return row, db) ->
  Api.update_product db product_id ProductUpdate.empty = (Return row, db)
  /\ forall r db', Api.update_product db product_id patch = (Return r, db') ->
       ProductModel.id r = ProductModel.id row
       /\ ProductModel.created_at r = ProductModel.created_at row
       /\ ProductModel.updated_at r = ProductModel.updated_at row
       /\ ProductModel.name r = patched (ProductUpdate.name patch) (ProductModel.name row)
       /\ ProductModel.price r = patched (ProductUpdate.price patch) (ProductModel.price row)
       /\ ProductModel.description r
          = patched (ProductUpdate.description patch) (ProductModel.description row)
       /\ ProductModel.category r
          = patched (ProductUpdate.category patch) (ProductModel.category row)
       /\ ProductModel.in_stock r
          = patched (ProductUpdate.in_stock patch) (ProductModel.in_stock row).
Proof.
  intro G. apply get_product_found in G. destruct G as [F Hid]. split.
  - unfold Api.update_product. rewrite first_by_id, F. simpl.
    unfold Db.refresh. rewrite first_by_id, Hid, F. reflexivity.
  - intros r db'. unfold Api.update_product. rewrite first_by_id, F.
    pose proof (assignments_apply patch row) as A.
    remember (ProductUpdate.model_dump_exclude_unset patch) as items eqn:Ei.
    remember (fold_left Api.setattr items row) as obj eqn:Eo.
    assert (K : ProductModel.id obj = product_id) by (rewrite A; exact Hid).
    unfold Db.commit. destruct (negb (is_nil items)) eqn:D.
    + destruct (ProductModel.not_null obj); [|discriminate].
      unfold Db.refresh. rewrite first_by_id. simpl.
      rewrite (find_replaced (Db.rows db) row obj) by (rewrite K; exact F).
      intro H. assert (E : r = obj) by congruence.
      rewrite E, A. simpl. repeat split.
    + unfold Db.refresh. rewrite first_by_id, K, F.
      assert (O : obj = row) by (rewrite Eo; destruct items; [reflexivity | discriminate D]).
      intro H. assert (E : r = obj) by congruence.
      rewrite E, A. simpl. repeat split.
Qed.

Lemma update_product_frame_witness :
  Api.update_product one_widget 1 ProductUpdate.empty
  = (Return (created 1 widget_product), one_widget)
  /\ forall r db',
       Api.update_product one_widget 1
         (ProductUpdate.make None (Some (Some 12.5%float)) None None None) = (Return r, db') ->
       ProductModel.price r = Some 12.5%float
       /\ ProductModel.name r = Some "Widget"
       /\ ProductModel.updated_at r = None.
Proof.
  assert (G : Api.get_product one_widget 1
              = (Return (created 1 widget_product), one_widget)) by reflexivity.
  destruct (update_product_frame one_widget 1 (created 1 widget_product)
              (ProductUpdate.make None (Some (Some 12.5%float)) None None None) G) as [E K].
  split; [exact E|].
  intros r db' H. destruct (K r db' H) as (_ & _ & U & N & P & _).
  split; [exact P | split; [exact N | exact U]].
Defined.

(** ** Create *)





(** ** Validation comes before the handler *)

(** A float that is at most zero is not greater than zero. *)
Lemma not_positive (p : float) :
  PrimFloat.leb p 0%float = true -> PrimFloat.ltb 0%float p = false.
Proof.
  rewrite leb_spec, ltb_spec.
  replace (Prim2SF 0%float) with (S754_zero false) by reflexivity.
  destruct (Prim2SF p) as [s|s| |s m e]; try destruct s; simpl;
    try reflexivity; discriminate.
Qed.

Lemma gt_rejects (loc : string) (p : float) :
  PrimFloat.ltb 0%float p = false -> gt loc 0%float p = [(loc, "greater_than")].
Proof. unfold gt. now intros ->. Qed.


Lemma max_length_rejects (loc : string) (n : Z) (s : string) :
  n < len s -> max_length loc n s = [(loc, "string_too_long")].
Proof.
  intro H. unfold max_length. destruct (Z.ltb_spec n (len s)); [reflexivity | lia].
Qed.

Lemma app_not_nil {A : Type} (l1 l2 : list A) : l1 <> [] \/ l2 <> [] -> l1 ++ l2 <> [].
Proof.
  intros [H|H] E; apply app_eq_nil in E; destruct E; contradiction.
Qed.



Lemma create_echo_finite (b : ProductCreate.body) :
  finite_price (ProductCreate.b_price b) ->
  forallb PrimFloat.is_finite (ProductCreate.echoed b) = true.
Proof.
  unfold finite_price, ProductCreate.echoed, ProductCreate.body_floats. intro F.
  destruct (ProductCreate.b_price b) as [p|].
  - rewrite (forallb_app). rewrite andb_true_iff. split.
    + destruct (ProductCreate.b_name b); simpl; [reflexivity | now rewrite (F p eq_refl)].
    + destruct (PrimFloat.ltb 0%float p); simpl; [reflexivity | now rewrite (F p eq_refl)].
  - now destruct (ProductCreate.b_name b).
Qed.

Lemma rejected_cases (echoed : list float) (errs : list FieldError) :
  Api.rejected echoed errs = Api.unprocessable errs
  \/ Api.rejected echoed errs = Api.server_error.
Proof. unfold Api.rejected. destruct (forallb _ _); [now left | now right]. Qed.



Lemma invalid_create_errors (b : ProductCreate.body) :
  invalid_create b -> ProductCreate.errors b <> [].
Proof.
  unfold invalid_create, ProductCreate.errors, oversize.
  intros [(p & Hp & Hn) | [Hn | [(s & Hs & Hl) | [(s & Hs & Hl) | (s & Hs & Hl)]]]].
  - apply app_not_nil. right. apply app_not_nil. left.
    unfold ProductCreate.price_errors. rewrite Hp.
    rewrite gt_rejects by (now apply not_positive). discriminate.
  - apply app_not_nil. left. unfold ProductCreate.name_errors. rewrite Hn. discriminate.
  - apply app_not_nil. left. unfold ProductCreate.name_errors. rewrite Hs.
    apply app_not_nil. right. rewrite max_length_rejects by exact Hl. discriminate.
  - do 2 (apply app_not_nil; right). apply app_not_nil. left.
    unfold ProductCreate.description_errors. rewrite Hs.
    rewrite max_length_rejects by exact Hl. discriminate.
  - do 3 (apply app_not_nil; right).
    unfold ProductCreate.category_errors. rewrite Hs.
    rewrite max_length_rejects by exact Hl. discriminate.
Qed.




(** ** List: filters, order and pages *)

Lemma filter_all {A : Type} (l : list A) : List.filter (fun _ => true) l = l.
Proof. induction l as [|a l IH]; simpl; [reflexivity | now rewrite IH]. Qed.

Lemma all_page (q : Db.Query) (skip limit : Z) :
  Db.all (Db.limit (Db.offset q skip) limit) = window skip limit (Db.selected q).
Proof. unfold Db.all, Db.limit, Db.offset, window. simpl. now destruct (limit <? 0). Qed.

Lemma window_nonneg {A : Type} (skip limit : Z) (l : list A) :
  0 <= limit -> window skip limit l = firstn (Z.to_nat limit) (skipn (Z.to_nat skip) l).
Proof. intro H. unfold window. destruct (Z.ltb_spec limit 0); [lia | reflexivity]. Qed.

(** The query [list_products] builds selects the records that match the
    filters it applies. *)
Lemma list_products_selects (db : Db.Table) (category : option string)
    (in_stock : option bool) (skip limit : Z) :
  Api.list_products db category in_stock skip limit
  = (Return (window skip limit
               (List.filter (Spec.matches (applied category) in_stock) (Db.rows db))), db).
Proof.
  unfold Api.list_products. rewrite all_page. do 3 f_equal.
  unfold Db.selected, applied.
  destruct category as [[|a c]|], in_stock as [b|]; simpl;
    apply filter_ext; intro r; unfold Spec.matches, Db.category_eq, Db.in_stock_eq; simpl;
    repeat match goal with
           | |- context [ProductModel.category ?x] => destruct (ProductModel.category x)
           | |- context [ProductModel.in_stock ?x] => destruct (ProductModel.in_stock x)
           end;
    rewrite ?andb_true_r; reflexivity.
Qed.

Lemma insert_least (r : ProductModel.t) (l : list ProductModel.t) :
  Forall (fun k => ProductModel.id r < k) (map ProductModel.id l) ->
  Spec.insert_by_id r l = r :: l.
Proof.
  destruct l as [|x l]; simpl; [reflexivity|].
  intro H. inversion H; subst.
  destruct (Z.leb_spec (ProductModel.id r) (ProductModel.id x)); [reflexivity | lia].
Qed.

(** Ordering by identifier leaves a key-ordered list as it is. *)
Lemma order_sorted (l : list ProductModel.t) :
  StronglySorted Z.lt (map ProductModel.id l) -> Spec.order_by_id l = l.
Proof.
  induction l as [|r l IH]; simpl; intro H; [reflexivity|].
  inversion H; subst. rewrite IH by assumption. now apply insert_least.
Qed.

Lemma in_firstn {A : Type} (n : nat) (l : list A) (x : A) :
  In x (firstn n l) -> In x l.
Proof.
  revert l. induction n as [|n IH]; intros [|a l]; simpl; try tauto.
  intros [H|H]; [now left | right; now apply IH].
Qed.

Lemma in_skipn {A : Type} (n : nat) (l : list A) (x : A) :
  In x (skipn n l) -> In x l.
Proof.
  revert l. induction n as [|n IH]; intros [|a l]; simpl; try tauto.
  intro H. right. now apply IH.
Qed.

Lemma sorted_skipn (n : nat) (l : list Z) :
  StronglySorted Z.lt l -> StronglySorted Z.lt (skipn n l).
Proof.
  revert l. induction n as [|n IH]; intros l H; simpl; [exact H|].
  destruct l as [|a l]; [constructor|]. inversion H; subst. now apply IH.
Qed.

Lemma sorted_firstn (n : nat) (l : list Z) :
  StronglySorted Z.lt l -> StronglySorted Z.lt (firstn n l).
Proof.
  revert l. induction n as [|n IH]; intros l H; simpl; [constructor|].
  destruct l as [|a l]; [constructor|]. inversion H; subst.
  constructor; [now apply IH|].
  rewrite Forall_forall in *. intros x Hx. apply in_firstn in Hx. auto.
Qed.

(** The claim of C2 fails on the code: on [five_products], whose third
    record alone has the empty category, List with the category filter ""
    returns all five records, where the records whose category equals ""
    are that one. *)
Lemma list_empty_category_not_equality :
  map ProductModel.id (returned (Api.list_products five_products (Some "") None 0 100))
  = [1; 2; 3; 4; 5]
  /\ map ProductModel.id (Spec.page (Db.rows five_products) (Some "") None 0 100) = [3]
  /\ returned (Api.list_products five_products (Some "") None 0 100)
     <> Spec.page (Db.rows five_products) (Some "") None 0 100.
Proof. split; [reflexivity | split; [reflexivity | vm_compute; discriminate]]. Qed.

(** C2 (amended).  In a table as the key column keeps it, for every
    combination of category filter, in_stock filter, non-negative skip and
    non-negative limit, List returns the records that match the in_stock
    filter, when one is given, and the category filter, when one is given
    and is not the empty string (an empty category filters nothing),
    ordered by identifier ascending, without the first skip of them and cut
    to at most limit; the page is in strictly ascending identifier order,
    and the table is left as it was. *)
Theorem list_products_page (db : Db.Table) (category : option string)
    (in_stock : option bool) (skip limit : Z) :
  Db.wf db -> 0 <= skip -> 0 <= limit ->
  Api.list_products db category in_stock skip limit
  = (Return (Spec.page (Db.rows db) (applied category) in_stock skip limit), db)
  /\ StronglySorted Z.lt
       (map ProductModel.id (Spec.page (Db.rows db) (applied category) in_stock skip limit))
  /\ (List.length (Spec.page (Db.rows db) (applied category) in_stock skip limit)
      <= Z.to_nat limit)%nat.
Proof.
  intros (Hs & _) _ Hl. unfold Spec.page.
  assert (O : Spec.order_by_id
                (List.filter (Spec.matches (applied category) in_stock) (Db.rows db))
              = List.filter (Spec.matches (applied category) in_stock) (Db.rows db))
    by (apply order_sorted, sorted_filter, Hs).
  rewrite O. split; [rewrite list_products_selects, window_nonneg by exact Hl; reflexivity|].
  split.
  - rewrite <- firstn_map, <- skipn_map.
    apply sorted_firstn, sorted_skipn, sorted_filter, Hs.
  - apply firstn_le_length.
Qed.

Lemma list_products_page_witness :
  Api.list_products five_products (Some "Tools") None 1 2
  = (Return (Spec.page (Db.rows five_products) (Some "Tools") None 1 2), five_products)
  /\ map ProductModel.id (Spec.page (Db.rows five_products) (Some "Tools") None 1 2) = [4].
Proof.
  assert (W : Db.wf five_products) by table_wf.
  destruct (list_products_page five_products (Some "Tools") None 1 2 W) as (P & _); [lia | lia |].
  split; [exact P | reflexivity].
Defined.

Lemma product_list_length (l : list ProductModel.t) (ps : list Product.object) :
  Api.product_list l = Some ps -> List.length ps = List.length l.
Proof.
  revert ps. induction l as [|r l IH]; simpl; intros ps H.
  - now inversion H.
  - destruct (Product.from_attributes r); [|discriminate].
    destruct (Api.product_list l) as [qs|]; [|discriminate].
    inversion H; subst. simpl. f_equal. now apply IH.
Qed.

Lemma product_list_representable (l : list ProductModel.t) :
  Forall representable l -> exists ps, Api.product_list l = Some ps.
Proof.
  induction 1 as [|r l Hr _ IH]; simpl; [now eexists|].
  unfold representable in Hr. destruct (Product.from_attributes r); [|contradiction].
  destruct IH as (ps & ->). now eexists.
Qed.

Lemma window_representable (skip limit : Z) (f : ProductModel.t -> bool)
    (l : list ProductModel.t) :
  Forall representable l -> Forall representable (window skip limit (List.filter f l)).
Proof.
  rewrite !Forall_forall. intros H r Hr. apply H. unfold window in Hr.
  destruct (limit <? 0); [|apply in_firstn in Hr]; apply in_skipn, filter_In in Hr; tauto.
Qed.

(** C7.  List never fails on an empty result.  For a skip and a limit in
    the declared ranges and a database that answers, the handler returns a
    page and leaves the table as it was, and when the response model can
    represent the records of the page the route answers 200 with as many
    objects as the page has records; when skip is at or past the number of
    matching records the page is the empty sequence and the route answers
    200 with the empty list; and against five records, with no filter, skip
    0 and limit 2, the page has exactly two records, and so has the 200
    response when the stored records are representable. *)
Theorem list_products_never_fails (env : Api.Env) (db : Db.Table)
    (category : option string) (in_stock : option bool) (skip limit : Z) :
  0 <= skip -> 1 <= limit <= 500 -> Api.ping env = None ->
  let request := {| Api.category := category; Api.in_stock := in_stock;
                    Api.skip := Some skip; Api.limit := Some limit |} in
  exists page,
    Api.list_products db category in_stock skip limit = (Return page, db)
    /\ (forall products,
          Api.product_list page = Some products ->
          Api.route_list_products env db request
          = ({| Api.status_code := 200; Api.body := Api.Products products |}, db)
          /\ List.length products = List.length page)
    /\ (Z.of_nat (List.length
                    (List.filter (Spec.matches (applied category) in_stock) (Db.rows db)))
        <= skip ->
        page = []
        /\ Api.route_list_products env db request
           = ({| Api.status_code := 200; Api.body := Api.Products [] |}, db))
    /\ (List.length (Db.rows db) = 5%nat -> category = None -> in_stock = None ->
        skip = 0 -> limit = 2 ->
        List.length page = 2%nat
        /\ (Forall representable (Db.rows db) ->
            exists products,
              Api.route_list_products env db request
              = ({| Api.status_code := 200; Api.body := Api.Products products |}, db)
              /\ List.length products = 2%nat)).
Proof.
  intros Hs Hl P request.
  set (page := window skip limit
                 (List.filter (Spec.matches (applied category) in_stock) (Db.rows db))).
  assert (Q : Api.query_errors skip limit = []).
  { unfold Api.query_errors.
    destruct (Z.ltb_spec skip 0); [lia|].
    destruct (Z.ltb_spec limit 1); [lia|].
    destruct (Z.ltb_spec 500 limit); [lia | reflexivity]. }
  assert (Route : forall products,
             Api.product_list page = Some products ->
             Api.route_list_products env db request
             = ({| Api.status_code := 200; Api.body := Api.Products products |}, db)).
  { intros products E. unfold Api.route_list_products, request.
    cbn [Api.skip Api.limit Api.category Api.in_stock Api.default].
    rewrite Q, session_up, list_products_selects by exact P.
    fold page. cbn [Api.respond]. now rewrite E. }
  exists page. split; [apply list_products_selects|]. split; [|split].
  - intros products E. split; [now apply Route | now apply product_list_length].
  - intro Hn.
    assert (E : page = []).
    { unfold page. rewrite window_nonneg by lia. rewrite skipn_all2 by lia.
      now destruct (Z.to_nat limit). }
    split; [exact E|]. apply Route. now rewrite E.
  - intros H5 -> -> -> ->.
    assert (L : List.length page = 2%nat).
    { unfold page, applied. simpl.
      change (Spec.matches None None) with (fun _ : ProductModel.t => true).
      rewrite filter_all. unfold window. simpl.
      destruct (Db.rows db) as [|a [|b [|c l]]]; try discriminate. reflexivity. }
    split; [exact L|]. intro R.
    destruct (product_list_representable page) as (products & E).
    { unfold page. now apply window_representable. }
    exists products. split; [now apply Route|].
    rewrite (product_list_length _ _ E). exact L.
Qed.

Lemma list_products_never_fails_witness :
  (exists products,
     Api.route_list_products online five_products
       {| Api.category := None; Api.in_stock := None;
          Api.skip := Some 0; Api.limit := Some 2 |}
     = ({| Api.status_code := 200; Api.body := Api.Products products |}, five_products)
     /\ List.length products = 2%nat)
  /\ Api.route_list_products online five_products
       {| Api.category := None; Api.in_stock := None;
          Api.skip := Some 5; Api.limit := Some 100 |}
     = ({| Api.status_code := 200; Api.body := Api.Products [] |}, five_products).
Proof.
  split.
  - destruct (list_products_never_fails online five_products None None 0 2)
      as (page & _ & _ & _ & L); [lia | lia | reflexivity |].
    destruct (L eq_refl eq_refl eq_refl eq_refl eq_refl) as [_ R].
    apply R. unfold five_products. vm_compute.
    repeat constructor; discriminate.
  - destruct (list_products_never_fails online five_products None None 5 100)
      as (page & _ & _ & E & _); [lia | lia | reflexivity |].
    destruct E as [_ R]; [vm_compute; discriminate | exact R].
Defined.

(** C10.  List tests its two filters differently.  A category filter equal
    to the empty string gives the same result as no category filter: the
    records are not filtered by category.  A non-empty category filter
    returns the records of exactly that category.  An in_stock filter of
    false returns the records whose in_stock is false, as true returns
    those whose in_stock is true, and only its absence leaves the records
    unfiltered by stock.  In each case the result is the window of skip and
    limit over the matching records in table order.  On [five_products] the
    in_stock filter false and no filter give different results, and the
    category "" does not give the records whose category is "". *)
Theorem list_filters_tested_differently (db : Db.Table) (in_stock : option bool)
    (skip limit : Z) :
  Api.list_products db (Some "") in_stock skip limit
  = Api.list_products db None in_stock skip limit
  /\ returned (Api.list_products db (Some "") in_stock skip limit)
     = window skip limit (List.filter (Spec.matches None in_stock) (Db.rows db))
  /\ (forall a c,
        returned (Api.list_products db (Some (String a c)) in_stock skip limit)
        = window skip limit
            (List.filter (Spec.matches (Some (String a c)) in_stock) (Db.rows db))
        /\ Forall (fun r => ProductModel.category r = Some (String a c))
             (returned (Api.list_products db (Some (String a c)) in_stock skip limit)))
  /\ (forall category b,
        returned (Api.list_products db category (Some b) skip limit)
        = window skip limit
            (List.filter (fun r => Spec.matches (applied category) None r
                                   && match ProductModel.in_stock r with
                                      | Some b' => Bool.eqb b' b
                                      | None => false
                                      end) (Db.rows db))
        /\ Forall (fun r => ProductModel.in_stock r = Some b)
             (returned (Api.list_products db category (Some b) skip limit)))
  /\ (forall category,
        returned (Api.list_products db category None skip limit)
        = window skip limit
            (List.filter (Spec.matches (applied category) None) (Db.rows db)))
  /\ returned (Api.list_products five_products None (Some false) 0 100)
     <> returned (Api.list_products five_products None None 0 100)
  /\ returned (Api.list_products five_products (Some "") None 0 100)
     <> List.filter (fun r => Db.category_eq (Some "") r) (Db.rows five_products).
Proof.
  assert (Sub : forall (Q : ProductModel.t -> Prop) category stock,
             (forall r, Spec.matches (applied category) stock r = true -> Q r) ->
             Forall Q (returned (Api.list_products db category stock skip limit))).
  { intros Q category stock H. rewrite list_products_selects. unfold returned. simpl.
    rewrite Forall_forall. intros r Hr. unfold window in Hr.
    destruct (limit <? 0); [|apply in_firstn in Hr];
      apply in_skipn, filter_In in Hr; now apply H. }
  split; [now rewrite !list_products_selects|].
  split; [now rewrite list_products_selects|].
  split; [|split; [|split; [|split]]].
  - intros a c. split; [now rewrite list_products_selects|].
    apply Sub. intros r. unfold Spec.matches, applied. simpl.
    destruct (ProductModel.category r) as [c'|]; simpl; [|discriminate].
    intro H. apply andb_prop in H. destruct H as [H _].
    apply String.eqb_eq in H. now subst.
  - intros category b. split.
    + rewrite list_products_selects. unfold returned. simpl. f_equal.
      apply filter_ext. intro r. unfold Spec.matches. now rewrite andb_true_r.
    + apply Sub. intros r. unfold Spec.matches.
      intro H. apply andb_prop in H. destruct H as [_ H].
      destruct (ProductModel.in_stock r) as [b'|]; [|discriminate].
      apply Bool.eqb_prop in H. now subst.
  - intro category. now rewrite list_products_selects.
  - vm_compute. discriminate.
  - vm_compute. discriminate.
Qed.

(** ** The tool proxy *)

Lemma get_missing_response (env : Api.Env) (db : Db.Table) (k : Z) :
  ~ In k (Db.ids db) ->
  Api.app env db (Api.GET_product k)
  = (match Api.ping env with
     | Some _ => Api.server_error
     | None => {| Api.status_code := 404;
                  Api.body := Api.Detail ("Product " ++ str_int k ++ " not found")%string |}
     end, db).
Proof.
  intro H. simpl. unfold Api.route_get_product, Api.session.
  destruct (Api.ping env); [reflexivity|].
  destruct (absent_not_found db k H) as [-> _]. reflexivity.
Qed.

(** C9.  For an identifier that is not in the catalog, the get action of
    the proxy returns an error payload and hands no exception to its caller,
    whatever the link and the database do; when the request reaches a
    service whose database answers, the payload is
    {error: "Product <id> not found"} with that identifier.  The table is
    left as it was. *)
Theorem proxy_get_missing (env : Api.Env) (link : Mcp.Link) (reason : Z -> string)
    (db : Db.Table) (product_id : Z) :
  ~ In product_id (Db.ids db) ->
  (exists msg,
     Mcp.get_product Db.Table (Mcp.wire env link) reason db product_id
     = (Mcp.Returns (Mcp.Error msg), db))
  /\ (link = Mcp.Up -> Api.ping env = None ->
      Mcp.get_product Db.Table (Mcp.wire env link) reason db product_id
      = (Mcp.Returns (Mcp.Error ("Product " ++ str_int product_id ++ " not found")%string), db)).
Proof.
  intro H. pose proof (get_missing_response env db product_id H) as R.
  unfold Mcp.get_product, Mcp.fetch, Mcp.request, Mcp.wire.
  split.
  - destruct link as [|msg|msg]; rewrite ?R; [|now eexists|now eexists].
    destruct (Api.ping env); now eexists.
  - intros -> P. rewrite R, P. reflexivity.
Qed.

Lemma proxy_get_missing_witness :
  Mcp.get_product Db.Table (Mcp.wire online Mcp.Up) (fun _ => "Client error") five_products 9
  = (Mcp.Returns (Mcp.Error "Product 9 not found"), five_products).
Proof.
  assert (A : ~ In 9 (Db.ids five_products)) by (vm_compute; intuition discriminate).
  destruct (proxy_get_missing online Mcp.Up (fun _ => "Client error") five_products 9 A)
    as [_ E].
  exact (E eq_refl eq_refl).
Defined.

(** The claim of C3 fails on the code: no tool call sends the health
    request, and none exposes the list request, whose skip parameter no tool
    takes and no tool call ever sets. *)
Lemma proxy_lacks_health_and_skip :
  ~ exposes Api.GET_health
  /\ ~ exposes (Api.GET_products
                  {| Api.category := None; Api.in_stock := None;
                     Api.skip := Some 5; Api.limit := Some 10 |})
  /\ ~ (exists c, Mcp.request_of c
                  = Api.GET_products
                      {| Api.category := None; Api.in_stock := None;
                         Api.skip := Some 5; Api.limit := Some 10 |})
  /\ ~ In "skip" (snd (Mcp.signature (Mcp.call_list_products None None 10))).
Proof.
  split; [|split; [|split]].
  - intros (c & E & _). destruct c; discriminate E.
  - intros (c & E & P). destruct c; try discriminate E; discriminate P.
  - intros (c & E). destruct c; discriminate E.
  - simpl. intuition discriminate.
Qed.

Lemma let_pair {A B C : Type} (h : A * B) (f : A -> C) :
  (let (r, s') := h in (f r, s')) = (f (fst h), snd h).
Proof. now destruct h. Qed.

Lemma request_state (S : Type) (send : S -> Api.Request -> (Api.Response + string) * S)
    (reason : Z -> string) (s : S) (req : Api.Request) :
  snd (Mcp.request S send reason s req)
  = if Mcp.encodable req then snd (send s req) else s.
Proof.
  unfold Mcp.request. destruct (Mcp.encodable req); [|reflexivity].
  now destruct (send s req) as [[response|msg] s'].
Qed.

Lemma fetch_state (S : Type) (send : S -> Api.Request -> (Api.Response + string) * S)
    (reason : Z -> string) (s : S) (req : Api.Request) :
  snd (Mcp.fetch S send reason s req)
  = if Mcp.encodable req then snd (send s req) else s.
Proof.
  unfold Mcp.fetch. rewrite <- (request_state S send reason s req).
  now destruct (Mcp.request S send reason s req) as [[response|e] s'].
Qed.

(** C3 (amended).  The proxy registers six tools: list_products,
    get_product, create_product, update_product, delete_product and
    get_categories; there is none for health.  Every tool call sends one
    request to the service and the state behind the connection is the one
    that request leaves (a create or update whose price is not a finite
    number cannot be encoded: nothing is sent).  The get, create, update,
    delete and list-categories requests are exposed with the logical
    parameters of the service operation; the list tool takes category,
    in_stock and limit and not skip, and the list request it sends never
    carries a skip. *)
Theorem proxy_actions :
  (forall c,
     In (fst (Mcp.signature c))
        ["list_products"; "get_product"; "create_product"; "update_product";
         "delete_product"; "get_categories"]
     /\ Mcp.request_of c <> Api.GET_health
     /\ match Mcp.request_of c with
        | Api.GET_products q =>
            snd (Mcp.signature c) = ["category"; "in_stock"; "limit"]
            /\ Api.skip q = None
        | req => snd (Mcp.signature c) = Api.parameters req
        end)
  /\ (forall product_id, exposes (Api.GET_product product_id))
  /\ (forall product_id, exposes (Api.DELETE_product product_id))
  /\ exposes Api.GET_categories
  /\ (forall name price description category in_stock,
        exposes (Api.POST_products
                   (ProductCreate.make_body (Some name) (Some price) description
                      (Some category) (Some in_stock))))
  /\ (forall product_id name price description category in_stock,
        exposes (Api.PUT_product product_id
                   (ProductUpdate.make (Mcp.given name) (Mcp.given price)
                      (Mcp.given description) (Mcp.given category) (Mcp.given in_stock))))
  /\ (forall category in_stock limit,
        Mcp.request_of (Mcp.call_list_products category in_stock limit)
        = Api.GET_products
            {| Api.category := if truthy category then category else None;
               Api.in_stock := in_stock; Api.skip := None; Api.limit := Some limit |})
  /\ (forall (S : Type) (send : S -> Api.Request -> (Api.Response + string) * S)
             (reason : Z -> string) (s : S) (c : Mcp.ToolCall),
        snd (Mcp.invoke send reason s c)
        = if Mcp.encodable (Mcp.request_of c) then snd (send s (Mcp.request_of c)) else s).
Proof.
  split; [|split; [|split; [|split; [|split; [|split; [|split]]]]]].
  - intro c. destruct c; simpl; (split; [tauto | split; [discriminate | auto]]).
  - intro k. now exists (Mcp.call_get_product k).
  - intro k. now exists (Mcp.call_delete_product k).
  - now exists Mcp.call_get_categories.
  - intros n p d c s. now exists (Mcp.call_create_product n p d c s).
  - intros k n p d c s. now exists (Mcp.call_update_product k n p d c s).
  - reflexivity.
  - intros S send reason s c.
    destruct c; unfold Mcp.invoke, Mcp.request_of;
      unfold Mcp.list_products, Mcp.get_product, Mcp.create_product, Mcp.update_product,
             Mcp.delete_product, Mcp.get_categories;
      rewrite let_pair; cbn [snd];
      first [apply fetch_state | apply request_state].
Qed.

(** ** The scenario of the specification, end to end *)

Example widget_scenario :
  let update := ProductUpdate.make None (Some (Some 12.5%float)) None None None in
  fst (Api.app online Db.empty (Api.POST_products widget))
  = {| Api.status_code := 201;
       Api.body := Api.OneProduct
                     (Product.model_dump (Product.make 1 "Widget" 9.5%float None "General" true)) |}
  /\ fst (Api.app online one_widget (Api.PUT_product 1 update))
     = {| Api.status_code := 200;
          Api.body := Api.OneProduct
                        (Product.model_dump
                           (Product.make 1 "Widget" 12.5%float None "General" true)) |}
  /\ fst (Api.app online
            (run online one_widget [Api.PUT_product 1 update; Api.DELETE_product 1])
            (Api.GET_product 1))
     = {| Api.status_code := 404; Api.body := Api.Detail "Product 1 not found" |}.
Proof. repeat split. Qed.

(** * Further properties of the service and of the proxy *)

(** ** Rows under other keys *)

Lemma stored_find (db : Db.Table) (k : Z) :
  stored db k = match find (Db.id_eq k) (Db.rows db) with
                | Some r => Return r
                | None => Raise (Api.not_found k)
                end.
Proof.
  unfold stored, Api.get_product. rewrite first_by_id. now destruct (find _ _).
Qed.

Lemma get_product_stored (db : Db.Table) (k : Z) :
  Api.get_product db k = (stored db k, db).
Proof.
  unfold stored, Api.get_product. now destruct (Db.first _).
Qed.

Lemma find_snoc (f : ProductModel.t -> bool) (l : list ProductModel.t) (r : ProductModel.t) :
  f r = false -> find f (l ++ [r]) = find f l.
Proof.
  intro H. induction l as [|x l IH]; simpl; [now rewrite H|].
  destruct (f x); [reflexivity | exact IH].
Qed.

Lemma find_replaced_other (l : list ProductModel.t) (obj : ProductModel.t) (j : Z) :
  j <> ProductModel.id obj ->
  find (Db.id_eq j) (map (fun x => if Db.id_eq (ProductModel.id obj) x then obj else x) l)
  = find (Db.id_eq j) l.
Proof.
  intro H. induction l as [|x l IH]; simpl; [reflexivity|].
  destruct (Db.id_eq (ProductModel.id obj) x) eqn:E.
  - unfold Db.id_eq in *. apply Z.eqb_eq in E.
    destruct (Z.eqb_spec (ProductModel.id obj) j); [congruence|].
    destruct (Z.eqb_spec (ProductModel.id x) j); [congruence | exact IH].
  - destruct (Db.id_eq j x); [reflexivity | exact IH].
Qed.

Lemma find_deleted_other (l : list ProductModel.t) (k j : Z) :
  j <> k ->
  find (Db.id_eq j) (List.filter (fun r => negb (Db.id_eq k r)) l) = find (Db.id_eq j) l.
Proof.
  intro H. induction l as [|x l IH]; simpl; [reflexivity|].
  destruct (Db.id_eq k x) eqn:E; simpl.
  - destruct (Db.id_eq j x) eqn:F; [|exact IH].
    unfold Db.id_eq in E, F. apply Z.eqb_eq in E. apply Z.eqb_eq in F. congruence.
  - destruct (Db.id_eq j x); [reflexivity | exact IH].
Qed.

Lemma find_deleted (l : list ProductModel.t) (k : Z) :
  find (Db.id_eq k) (List.filter (fun r => negb (Db.id_eq k r)) l) = None.
Proof.
  induction l as [|x l IH]; simpl; [reflexivity|].
  destruct (Db.id_eq k x) eqn:E; simpl; [exact IH | now rewrite E].
Qed.

(** ** List-Categories *)

Lemma same_value_eq (a b : option string) : Db.same_value a b = true <-> a = b.
Proof.
  destruct a as [x|], b as [y|]; simpl; split; intro H;
    try discriminate; try reflexivity.
  - apply String.eqb_eq in H. now subst.
  - inversion H. apply String.eqb_refl.
Qed.

Lemma seen_in_spec (c : option string) (seen : list (option string)) :
  Db.seen_in c seen = true <-> In c seen.
Proof.
  unfold Db.seen_in. rewrite existsb_exists. split.
  - intros (x & Hx & E). apply same_value_eq in E. now subst.
  - intro H. exists c. split; [exact H | now apply same_value_eq].
Qed.

Lemma distinct_from_spec (l seen : list (option string)) :
  NoDup (Db.distinct_from seen l)
  /\ forall c, In c (Db.distinct_from seen l) <-> In c l /\ ~ In c seen.
Proof.
  revert seen. induction l as [|x l IH]; intro seen; simpl.
  - split; [constructor | tauto].
  - destruct (Db.seen_in x seen) eqn:S.
    + apply seen_in_spec in S. destruct (IH seen) as [N M]. split; [exact N|].
      intro c. rewrite M. split; [tauto|]. intros [[E|H] Hn]; [subst; contradiction | tauto].
    + assert (Sx : ~ In x seen) by (rewrite <- seen_in_spec, S; discriminate).
      destruct (IH (x :: seen)) as [N M]. split.
      * constructor; [|exact N]. rewrite M. simpl. tauto.
      * intro c. simpl. rewrite M. simpl. split.
        -- intros [E|[H Hn]]; [subst; tauto | tauto].
        -- intros [[E|H] Hn]; [now left|].
           destruct (seen_in_spec c [x]) as [_ D]. unfold Db.seen_in in D. simpl in D.
           destruct (Db.same_value c x) eqn:E; [left; symmetry; now apply same_value_eq|].
           right. split; [exact H|]. intros [E'|E']; [|contradiction].
           subst. rewrite (proj2 (same_value_eq c c) eq_refl) in E. discriminate.
Qed.

(** X1.  List-Categories returns every category value that some stored
    record has, each exactly once, nothing else, and leaves the table as it
    was; a record with no category contributes the null value. *)
Theorem list_categories_distinct (db : Db.Table) :
  exists l,
    Api.list_categories db = (Return l, db)
    /\ NoDup l
    /\ forall c, In c l <-> exists r, In r (Db.rows db) /\ ProductModel.category r = c.
Proof.
  eexists. split; [reflexivity|].
  destruct (distinct_from_spec (map ProductModel.category (Db.rows db)) []) as [N M].
  split; [exact N|]. intro c. unfold Db.distinct. rewrite M, in_map_iff. simpl.
  split; [intros [(r & E & H) _]; now exists r | intros (r & H & E); split; [now exists r | tauto]].
Qed.

(** ** Requests that read, and a database that does not answer *)

(** X2.  Root, List, Get, List-Categories and Health never change the
    table, whatever they answer and whatever the state of the database. *)
Theorem reads_leave_table (env : Api.Env) (db : Db.Table) (req : Api.Request) :
  reads req = true -> snd (Api.app env db req) = db.
Proof.
  intro R. destruct req as [|q|k|b|k u|k| |]; try discriminate R; simpl; try reflexivity.
  - unfold Api.route_list_products. destruct (Api.query_errors _ _); [|reflexivity].
    rewrite served. unfold Api.session. now destruct (Api.ping env).
  - unfold Api.route_get_product. rewrite served. unfold Api.session, Api.get_product.
    destruct (Api.ping env); [reflexivity|]. now destruct (Db.first _).
  - unfold Api.route_list_categories. rewrite served. unfold Api.session.
    now destruct (Api.ping env).
Qed.

Lemma reads_leave_table_witness :
  snd (Api.app online five_products
         (Api.GET_products {| Api.category := Some "Tools"; Api.in_stock := None;
                              Api.skip := None; Api.limit := None |}))
  = five_products.
Proof. apply reads_leave_table. reflexivity. Defined.

Lemma session_down {A : Type} (env : Api.Env) (db : Db.Table) (h : Result A * Db.Table)
    (e : string) :
  Api.ping env = Some e -> Api.session env db h = (Raise (OperationalError e), db).
Proof. unfold Api.session. now intros ->. Qed.

(** X3.  While the database does not answer, no request changes the table;
    Health answers 503 with the detail "Database unavailable: " followed by
    the cause; every other request that needs the database answers 500,
    unless its input is rejected first with 422. *)
Theorem database_down (env : Api.Env) (db : Db.Table) (req : Api.Request) (cause : string) :
  Api.ping env = Some cause ->
  snd (Api.app env db req) = db
  /\ match req with
     | Api.GET_root => Api.status_code (fst (Api.app env db req)) = 200
     | Api.GET_health =>
         fst (Api.app env db req)
         = {| Api.status_code := 503;
              Api.body := Api.Detail ("Database unavailable: " ++ cause)%string |}
     | _ =>
         fst (Api.app env db req) = Api.server_error
         \/ Api.status_code (fst (Api.app env db req)) = 422
     end.
Proof.
  intro P. destruct req as [|q|k|b|k u|k| |]; simpl.
  - now split.
  - unfold Api.route_list_products. destruct (Api.query_errors _ _); [|split; [reflexivity | now right]].
    rewrite (session_down env db _ cause P). split; [reflexivity | now left].
  - unfold Api.route_get_product. rewrite (session_down env db _ cause P).
    split; [reflexivity | now left].
  - unfold Api.route_create_product. destruct (ProductCreate.validate b) as [errs|product].
    + split; [reflexivity|]. cbn [fst].
      destruct (rejected_cases (ProductCreate.echoed b) errs) as [-> | ->];
        [now right | now left].
    + rewrite (session_down env db _ cause P). split; [reflexivity | now left].
  - unfold Api.route_update_product. destruct (ProductUpdate.validate u) as [errs|patch].
    + split; [reflexivity|]. cbn [fst].
      destruct (rejected_cases (ProductUpdate.echoed u) errs) as [-> | ->];
        [now right | now left].
    + rewrite (session_down env db _ cause P). split; [reflexivity | now left].
  - unfold Api.route_delete_product. rewrite (session_down env db _ cause P).
    split; [reflexivity | now left].
  - unfold Api.route_list_categories. rewrite (session_down env db _ cause P).
    split; [reflexivity | now left].
  - unfold Api.route_health_check, Api.health_check. rewrite P. now split.
Qed.

Lemma database_down_witness :
  Api.app {| Api.ping := Some "connection refused"; Api.now := 5 |} five_products Api.GET_health
  = ({| Api.status_code := 503;
        Api.body := Api.Detail "Database unavailable: connection refused" |}, five_products).
Proof.
  destruct (database_down {| Api.ping := Some "connection refused"; Api.now := 5 |}
              five_products Api.GET_health "connection refused" eq_refl) as [T R].
  rewrite (surjective_pairing (Api.app _ _ _)), T, R. reflexivity.
Defined.

(** ** Update: missing records, persistence, nulls *)

Lemma update_product_found (db : Db.Table) (k : Z) (row : ProductModel.t)
    (patch : ProductUpdate.t) :
  find (Db.id_eq k) (Db.rows db) = Some row ->
  let obj := fold_left Api.setattr (ProductUpdate.model_dump_exclude_unset patch) row in
  let dirty := negb (is_nil (ProductUpdate.model_dump_exclude_unset patch)) in
  Api.update_product db k patch
  = match Db.commit db dirty obj with
    | Raise e => (Raise e, db)
    | Return db' => (Db.refresh db' (ProductModel.id obj), db')
    end.
Proof.
  intro F. unfold Api.update_product. rewrite first_by_id, F. reflexivity.
Qed.

Lemma update_valid_route (env : Api.Env) (db : Db.Table) (k : Z) (patch : ProductUpdate.t) :
  Api.ping env = None -> ProductUpdate.errors patch = [] ->
  Api.route_update_product env db k patch
  = (Api.respond 200 Api.one_product (fst (Api.update_product db k patch)),
     snd (Api.update_product db k patch)).
Proof.
  intros P E. unfold Api.route_update_product, ProductUpdate.validate.
  rewrite E, session_up by exact P. now destruct (Api.update_product db k patch).
Qed.

(** X4.  Update of an identifier that no stored record has raises the 404
    exception naming that identifier and leaves the table as it was,
    whatever the patch; the route, served by a database that answers,
    responds 404 with that detail when the patch is valid. *)
Theorem update_missing (env : Api.Env) (db : Db.Table) (product_id : Z)
    (patch : ProductUpdate.t) :
  ~ In product_id (Db.ids db) ->
  let detail := ("Product " ++ str_int product_id ++ " not found")%string in
  Api.update_product db product_id patch = (Raise (HTTPException 404 detail), db)
  /\ (Api.ping env = None -> ProductUpdate.errors patch = [] ->
      Api.route_update_product env db product_id patch
      = ({| Api.status_code := 404; Api.body := Api.Detail detail |}, db)).
Proof.
  intros H detail.
  assert (U : Api.update_product db product_id patch = (Raise (HTTPException 404 detail), db)).
  { unfold Api.update_product. rewrite first_by_id, (find_absent _ _ H). reflexivity. }
  split; [exact U|]. intros P E. rewrite update_valid_route, U by assumption. reflexivity.
Qed.

Lemma update_missing_witness :
  Api.route_update_product online five_products 9
    (ProductUpdate.make None (Some (Some 3.5%float)) None None None)
  = ({| Api.status_code := 404; Api.body := Api.Detail "Product 9 not found" |}, five_products).
Proof.
  assert (A : ~ In 9 (Db.ids five_products)) by (vm_compute; intuition discriminate).
  destruct (update_missing online five_products 9
              (ProductUpdate.make None (Some (Some 3.5%float)) None None None) A) as [_ R].
  exact (R eq_refl eq_refl).
Defined.

Lemma update_product_success (db db' : Db.Table) (k : Z) (patch : ProductUpdate.t)
    (r : ProductModel.t) :
  Api.update_product db k patch = (Return r, db') ->
  exists row,
    find (Db.id_eq k) (Db.rows db) = Some row
    /\ ProductModel.id row = k
    /\ r = fold_left Api.setattr (ProductUpdate.model_dump_exclude_unset patch) row
    /\ ((db' = db /\ r = row)
        \/ db' = {| Db.rows := map (fun x => if Db.id_eq k x then r else x) (Db.rows db);
                   Db.next_id := Db.next_id db |}).
Proof.
  unfold Api.update_product. rewrite first_by_id.
  destruct (find (Db.id_eq k) (Db.rows db)) as [row|] eqn:F; [|discriminate].
  destruct (find_present _ _ _ F) as [_ Hid].
  pose proof (assignments_apply patch row) as A.
  remember (fold_left Api.setattr (ProductUpdate.model_dump_exclude_unset patch) row)
    as obj eqn:Eo.
  assert (K : ProductModel.id obj = k) by (rewrite A; exact Hid).
  unfold Db.commit.
  destruct (negb (is_nil (ProductUpdate.model_dump_exclude_unset patch))) eqn:D.
  - destruct (ProductModel.not_null obj); [|discriminate].
    unfold Db.refresh. rewrite first_by_id. simpl.
    rewrite (find_replaced (Db.rows db) row obj) by (rewrite K; exact F).
    intro H. inversion H; subst r. exists row. rewrite K. repeat split; auto.
  - unfold Db.refresh. rewrite first_by_id, K, F.
    intro H. inversion H; subst. exists r. split; [reflexivity|]. split; [reflexivity|]. split; [|now left].
    revert D. destruct (ProductUpdate.model_dump_exclude_unset patch);
      [reflexivity | discriminate].
Qed.

(** X5.  A successful Update is persisted and touches one record only: Get
    on the same identifier then returns the record Update returned, every
    other identifier reads as before, and the identifiers in the table and
    the key counter are unchanged. *)
Theorem update_persists (db db' : Db.Table) (product_id : Z) (patch : ProductUpdate.t)
    (r : ProductModel.t) :
  Api.update_product db product_id patch = (Return r, db') ->
  Api.get_product db' product_id = (Return r, db')
  /\ (forall j, j <> product_id -> stored db' j = stored db j)
  /\ Db.ids db' = Db.ids db
  /\ Db.next_id db' = Db.next_id db.
Proof.
  intro U.
  destruct (update_product_success _ _ _ _ _ U) as (row & F & Hid & Er & [[-> ->]| ->]).
  - rewrite get_product_stored, stored_find, F. repeat split; reflexivity.
  - assert (K : ProductModel.id r = product_id).
    { rewrite Er, assignments_apply. exact Hid. }
    clear Hid. subst product_id. split; [|split; [|split]].
    + rewrite get_product_stored, stored_find. simpl.
      rewrite (find_replaced (Db.rows db) row r) by exact F. reflexivity.
    + intros j Hj. rewrite !stored_find. simpl.
      rewrite find_replaced_other by exact Hj. reflexivity.
    + unfold Db.ids. simpl. apply ids_replaced.
    + reflexivity.
Qed.

Lemma update_persists_witness :
  exists r db',
    Api.update_product five_products 2
      (ProductUpdate.make (Some (Some "Gizmo")) None None None (Some (Some false)))
    = (Return r, db')
    /\ Api.get_product db' 2 = (Return r, db')
    /\ stored db' 3 = stored five_products 3.
Proof.
  destruct (Api.update_product five_products 2
              (ProductUpdate.make (Some (Some "Gizmo")) None None None (Some (Some false))))
    as [[r|e] db'] eqn:U.
  - exists r, db'. destruct (update_persists _ _ _ _ _ U) as (G & O & _).
    split; [reflexivity|]. split; [exact G | apply O; discriminate].
  - vm_compute in U. discriminate U.
Defined.

Lemma assignments_idempotent (patch : ProductUpdate.t) (row : ProductModel.t) :
  let items := ProductUpdate.model_dump_exclude_unset patch in
  fold_left Api.setattr items (fold_left Api.setattr items row)
  = fold_left Api.setattr items row.
Proof.
  cbv zeta. rewrite !assignments_apply. simpl.
  destruct patch as [n p d c s]. simpl. now destruct n, p, d, c, s.
Qed.

Lemma replaced_twice (l : list ProductModel.t) (obj : ProductModel.t) :
  let put := fun x => if Db.id_eq (ProductModel.id obj) x then obj else x in
  map put (map put l) = map put l.
Proof.
  cbv zeta. rewrite map_map. apply map_ext. intro x.
  destruct (Db.id_eq (ProductModel.id obj) x) eqn:E; [|now rewrite E].
  unfold Db.id_eq. now rewrite Z.eqb_refl.
Qed.

(** X6.  Applying the same patch a second time changes nothing: after a
    successful Update, the same Update on the resulting table succeeds
    again, returns the same record and leaves that table as it is. *)
Theorem update_idempotent (db db' : Db.Table) (product_id : Z) (patch : ProductUpdate.t)
    (r : ProductModel.t) :
  Api.update_product db product_id patch = (Return r, db') ->
  Api.update_product db' product_id patch = (Return r, db').
Proof.
  intro U. pose proof U as U0.
  unfold Api.update_product in U. rewrite first_by_id in U.
  destruct (find (Db.id_eq product_id) (Db.rows db)) as [row|] eqn:F; [|discriminate].
  destruct (find_present _ _ _ F) as [_ Hid].
  pose proof (assignments_apply patch row) as A.
  pose proof (assignments_idempotent patch row) as I. cbv zeta in I.
  remember (fold_left Api.setattr (ProductUpdate.model_dump_exclude_unset patch) row)
    as obj eqn:Eo.
  assert (K : ProductModel.id obj = product_id) by (rewrite A; exact Hid).
  clear A Eo Hid. subst product_id.
  unfold Db.commit in U.
  destruct (negb (is_nil (ProductUpdate.model_dump_exclude_unset patch))) eqn:D.
  - destruct (ProductModel.not_null obj) as [[]|] eqn:N; [|discriminate].
    unfold Db.refresh in U. rewrite first_by_id in U. simpl in U.
    rewrite (find_replaced (Db.rows db) row obj F) in U.
    inversion U; subst r db'. clear U U0.
    rewrite (update_product_found _ (ProductModel.id obj) obj patch)
      by (simpl; exact (find_replaced (Db.rows db) row obj F)).
    cbv zeta. rewrite I. unfold Db.commit. rewrite D, N.
    unfold Db.refresh. rewrite first_by_id. simpl.
    rewrite (replaced_twice (Db.rows db) obj).
    rewrite (find_replaced (Db.rows db) row obj F). reflexivity.
  - assert (db' = db) by congruence. subst db'. exact U0.
Qed.

Lemma update_idempotent_witness :
  exists r db',
    Api.update_product five_products 4
      (ProductUpdate.make None (Some (Some 3.5%float)) (Some None) None None)
    = (Return r, db')
    /\ Api.update_product db' 4
         (ProductUpdate.make None (Some (Some 3.5%float)) (Some None) None None)
       = (Return r, db').
Proof.
  destruct (Api.update_product five_products 4
              (ProductUpdate.make None (Some (Some 3.5%float)) (Some None) None None))
    as [[r|e] db'] eqn:U.
  - exists r, db'. split; [reflexivity | exact (update_idempotent _ _ _ _ _ U)].
  - vm_compute in U. discriminate U.
Defined.

Lemma dump_not_nil (patch : ProductUpdate.t) :
  ProductUpdate.name patch <> None \/ ProductUpdate.price patch <> None
  \/ ProductUpdate.category patch <> None \/ ProductUpdate.in_stock patch <> None ->
  negb (is_nil (ProductUpdate.model_dump_exclude_unset patch)) = true.
Proof.
  destruct patch as [n p d c s]. unfold ProductUpdate.model_dump_exclude_unset. simpl.
  destruct n, p, d, c, s; simpl; try reflexivity; intuition congruence.
Qed.

(** X7.  A patch that sets the name or the price to an explicit null passes
    validation of those fields, but the write fails on the NOT NULL column:
    Update raises an integrity error, the route responds 500, and the table
    is left as it was. *)
Theorem update_null_required (env : Api.Env) (db : Db.Table) (product_id : Z)
    (row : ProductModel.t) (patch : ProductUpdate.t) :
  Api.get_product db product_id = (Return row, db) ->
  nulled (ProductUpdate.name patch) \/ nulled (ProductUpdate.price patch) ->
  (exists column, Api.update_product db product_id patch = (Raise (IntegrityError column), db))
  /\ (Api.ping env = None -> ProductUpdate.errors patch = [] ->
      Api.route_update_product env db product_id patch = (Api.server_error, db)).
Proof.
  intros G N. apply get_product_found in G. destruct G as [F _].
  assert (U : exists column,
             Api.update_product db product_id patch = (Raise (IntegrityError column), db)).
  { rewrite (update_product_found db product_id row patch F). cbv zeta.
    rewrite dump_not_nil by (unfold nulled in N; destruct N as [-> | ->]; intuition congruence).
    unfold Db.commit. rewrite assignments_apply. unfold ProductModel.not_null. simpl.
    unfold nulled in N. destruct N as [-> | ->]; simpl.
    - now eexists.
    - destruct (patched (ProductUpdate.name patch) (ProductModel.name row)); now eexists. }
  split; [exact U|]. intros P E. destruct U as (column & U).
  rewrite update_valid_route, U by assumption. reflexivity.
Qed.

Lemma update_null_required_witness :
  Api.route_update_product online five_products 2
    (ProductUpdate.make (Some None) None None None None)
  = (Api.server_error, five_products).
Proof.
  destruct (update_null_required online five_products 2
              (created 2 (ProductCreate.make "Gadget" 12.5%float (Some "A gadget") "Tools" true))
              (ProductUpdate.make (Some None) None None None None) eq_refl
              (or_introl eq_refl)) as [_ R].
  exact (R eq_refl eq_refl).
Defined.

(** X8.  A patch that sets the category or the in_stock flag to an explicit
    null, on a record that has a name and a price and with name and price
    not nulled, is stored: the column becomes null.  The response model
    cannot represent the record, so the Update route responds 500 although
    the write went through, and from then on Get of that record responds
    500 as well. *)
Theorem update_null_optional (env : Api.Env) (db : Db.Table) (product_id : Z)
    (row : ProductModel.t) (patch : ProductUpdate.t) :
  Api.get_product db product_id = (Return row, db) ->
  ProductModel.not_null row = Return tt ->
  ProductUpdate.errors patch = [] ->
  ~ nulled (ProductUpdate.name patch) -> ~ nulled (ProductUpdate.price patch) ->
  nulled (ProductUpdate.category patch) \/ nulled (ProductUpdate.in_stock patch) ->
  Api.ping env = None ->
  exists r db',
    Api.update_product db product_id patch = (Return r, db')
    /\ (ProductModel.category r = None \/ ProductModel.in_stock r = None)
    /\ Api.route_update_product env db product_id patch = (Api.server_error, db')
    /\ Api.get_product db' product_id = (Return r, db')
    /\ Api.route_get_product env db' product_id = (Api.server_error, db').
Proof.
  intros G NN E Hn Hp N P. apply get_product_found in G. destruct G as [F Hid].
  pose proof (update_product_found db product_id row patch F) as U. cbv zeta in U.
  rewrite dump_not_nil in U
    by (unfold nulled in N; destruct N as [-> | ->]; intuition congruence).
  pose proof (assignments_apply patch row) as A.
  remember (fold_left Api.setattr (ProductUpdate.model_dump_exclude_unset patch) row)
    as obj eqn:Eo.
  assert (K : ProductModel.id obj = product_id) by (rewrite A; exact Hid).
  assert (Ok : ProductModel.not_null obj = Return tt).
  { rewrite A. unfold ProductModel.not_null in *. simpl. unfold nulled in Hn, Hp.
    destruct (ProductModel.name row), (ProductModel.price row); try discriminate NN.
    destruct (ProductUpdate.name patch) as [[?|]|], (ProductUpdate.price patch) as [[?|]|];
      simpl; congruence. }
  assert (Null : ProductModel.category obj = None \/ ProductModel.in_stock obj = None).
  { rewrite A. simpl. unfold nulled in N. destruct N as [-> | ->]; [now left | now right]. }
  assert (Ser : Product.from_attributes obj = None).
  { unfold Product.from_attributes.
    destruct (ProductModel.name obj), (ProductModel.price obj); try reflexivity.
    destruct Null as [-> | ->]; [reflexivity | now destruct (ProductModel.category obj)]. }
  unfold Db.commit in U. rewrite Ok in U. unfold Db.refresh in U.
  rewrite first_by_id in U. simpl in U.
  rewrite (find_replaced (Db.rows db) row obj) in U by (rewrite K; exact F).
  eexists obj, _. split; [exact U|]. split; [exact Null|].
  assert (Got : Api.get_product
                  {| Db.rows := map (fun r => if Db.id_eq (ProductModel.id obj) r then obj else r)
                                    (Db.rows db);
                     Db.next_id := Db.next_id db |} product_id
                = (Return obj, {| Db.rows := map (fun r => if Db.id_eq (ProductModel.id obj) r
                                                           then obj else r) (Db.rows db);
                                  Db.next_id := Db.next_id db |})).
  { rewrite get_product_stored, stored_find. simpl. rewrite <- K at 1.
    rewrite (find_replaced (Db.rows db) row obj) by (rewrite K; exact F). reflexivity. }
  split; [|split; [exact Got|]].
  - rewrite update_valid_route, U by assumption. simpl.
    unfold Api.one_product. now rewrite Ser.
  - unfold Api.route_get_product. rewrite session_up, Got by exact P. simpl.
    unfold Api.one_product. now rewrite Ser.
Qed.

Lemma update_null_optional_witness :
  exists db',
    Api.route_update_product online five_products 2
      (ProductUpdate.make None None None (Some None) None) = (Api.server_error, db')
    /\ Api.route_get_product online db' 2 = (Api.server_error, db')
    /\ Api.route_get_product online five_products 2 <> (Api.server_error, five_products).
Proof.
  destruct (update_null_optional online five_products 2
              (created 2 (ProductCreate.make "Gadget" 12.5%float (Some "A gadget") "Tools" true))
              (ProductUpdate.make None None None (Some None) None)
              eq_refl eq_refl eq_refl) as (r & db' & _ & _ & R & _ & G).
  - discriminate.
  - discriminate.
  - now left.
  - reflexivity.
  - exists db'. split; [exact R|]. split; [exact G|]. vm_compute. discriminate.
Defined.

(** ** Delete and Create: one record at a time *)

(** X9.  Delete of an existing record succeeds, removes the records with
    that identifier and no other, and keeps the key counter; afterwards Get
    on that identifier raises the 404 exception and every other identifier
    reads as before.  Served by a database that answers, the route responds
    204 with no content. *)
Theorem delete_removes (env : Api.Env) (db : Db.Table) (product_id : Z)
    (row : ProductModel.t) :
  Api.get_product db product_id = (Return row, db) ->
  exists db',
    Api.delete_product db product_id = (Return tt, db')
    /\ Db.rows db' = List.filter (fun r => negb (Db.id_eq product_id r)) (Db.rows db)
    /\ Db.next_id db' = Db.next_id db
    /\ stored db' product_id = Raise (Api.not_found product_id)
    /\ (forall j, j <> product_id -> stored db' j = stored db j)
    /\ (Api.ping env = None ->
        Api.route_delete_product env db product_id
        = ({| Api.status_code := 204; Api.body := Api.NoContent |}, db')).
Proof.
  intro G. apply get_product_found in G. destruct G as [F Hid].
  assert (D : Api.delete_product db product_id = (Return tt, Db.delete_commit db row)).
  { unfold Api.delete_product. now rewrite first_by_id, F. }
  exists (Db.delete_commit db row). unfold Db.delete_commit. rewrite Hid.
  split; [rewrite D; unfold Db.delete_commit; now rewrite Hid|].
  split; [reflexivity|]. split; [reflexivity|]. split; [|split].
  - rewrite stored_find. simpl. now rewrite find_deleted.
  - intros j Hj. rewrite !stored_find. simpl. now rewrite find_deleted_other.
  - intro P. unfold Api.route_delete_product. rewrite session_up, D by exact P.
    unfold Db.delete_commit. now rewrite Hid.
Qed.

Lemma delete_removes_witness :
  exists db',
    Api.route_delete_product online five_products 3
    = ({| Api.status_code := 204; Api.body := Api.NoContent |}, db')
    /\ Db.ids db' = [1; 2; 4; 5]
    /\ stored db' 3 = Raise (HTTPException 404 "Product 3 not found").
Proof.
  destruct (delete_removes online five_products 3
              (created 3 (ProductCreate.make "Gadget" 12.5%float (Some "A gadget") "" false))
              eq_refl) as (db' & _ & Rows & _ & Gone & _ & R).
  exists db'. split; [exact (R eq_refl)|]. split; [|exact Gone].
  unfold Db.ids. rewrite Rows. reflexivity.
Defined.

(** X10.  Create appends one record and touches no other: the table after
    Create is the table before with the new record at the end, and every
    identifier other than the one just assigned reads as before. *)
Theorem create_appends (db : Db.Table) (product : ProductCreate.t) (j : Z) :
  j <> Db.next_id db ->
  exists row,
    Db.rows (snd (Api.create_product db product)) = Db.rows db ++ [row]
    /\ ProductModel.id row = Db.next_id db
    /\ Db.next_id (snd (Api.create_product db product)) = Db.next_id db + 1
    /\ stored (snd (Api.create_product db product)) j = stored db j.
Proof.
  intro H. exists (created (Db.next_id db) product).
  assert (T : snd (Api.create_product db product) = inserted db product) by reflexivity.
  rewrite T. split; [reflexivity|]. split; [reflexivity|]. split; [reflexivity|].
  rewrite !stored_find. unfold inserted. simpl.
  rewrite find_snoc; [reflexivity|].
  unfold Db.id_eq. simpl. now apply Z.eqb_neq.
Qed.

Lemma create_appends_witness :
  stored (snd (Api.create_product five_products widget_product)) 2 = stored five_products 2
  /\ Db.ids (snd (Api.create_product five_products widget_product)) = [1; 2; 3; 4; 5; 6].
Proof.
  destruct (create_appends five_products widget_product 2) as (row & _ & _ & _ & S).
  - discriminate.
  - split; [exact S | reflexivity].
Defined.

(** X11.  An identifier is never handed out twice: once a record has been
    deleted, whatever requests follow, no later Create returns a record
    with the identifier of the deleted one. *)
Theorem identifier_not_reused (db0 db1 db3 : Db.Table) (product_id : Z)
    (history : list (Api.Env * Api.Request)) (product : ProductCreate.t)
    (r : ProductModel.t) :
  Db.wf db0 ->
  Api.delete_product db0 product_id = (Return tt, db1) ->
  Api.create_product (replay db1 history) product = (Return r, db3) ->
  ProductModel.id r <> product_id
  /\ Db.next_id db0 <= ProductModel.id r.
Proof.
  intros W D C.
  pose proof (delete_product_evolves db0 product_id W) as (W1 & N1 & _).
  rewrite D in W1, N1. simpl in W1, N1.
  assert (Hk : product_id < Db.next_id db0).
  { unfold Api.delete_product in D. rewrite first_by_id in D.
    destruct (find _ _) as [x|] eqn:F; [|discriminate].
    apply find_present in F. destruct F as [HI Hid].
    destruct W as (_ & Hb & _). rewrite Forall_forall in Hb.
    apply Hb. unfold Db.ids. rewrite <- Hid. now apply in_map. }
  destruct (replay_evolves history db1 W1) as (W2 & N2 & _).
  rewrite (create_product_row _ product W2) in C. inversion C; subst. simpl. lia.
Qed.

Lemma identifier_not_reused_witness :
  exists r db3,
    Api.create_product
      (replay (snd (Api.delete_product five_products 5)) [(online, Api.GET_categories)])
      widget_product = (Return r, db3)
    /\ ProductModel.id r <> 5.
Proof.
  assert (W : Db.wf five_products) by table_wf.
  destruct (Api.create_product
              (replay (snd (Api.delete_product five_products 5)) [(online, Api.GET_categories)])
              widget_product) as [[r|e] db3] eqn:C.
  - exists r, db3. split; [reflexivity|].
    exact (proj1 (identifier_not_reused five_products _ db3 5 _ widget_product r W eq_refl C)).
  - vm_compute in C. discriminate C.
Defined.

(** ** List: the declared ranges, page sizes, consecutive pages *)

(** X12.  A List request with a negative skip, a limit below 1 or a limit
    above 500 is answered 422 with a non-empty report that names only skip
    and limit, and the table is left as it was, whatever the state of the
    database. *)
Theorem list_query_rejected (env : Api.Env) (db : Db.Table) (category : option string)
    (in_stock : option bool) (skip limit : Z) :
  skip < 0 \/ limit < 1 \/ 500 < limit ->
  exists errs,
    errs <> []
    /\ Forall (fun e => fst e = "skip" \/ fst e = "limit") errs
    /\ Api.app env db
         (Api.GET_products {| Api.category := category; Api.in_stock := in_stock;
                              Api.skip := Some skip; Api.limit := Some limit |})
       = ({| Api.status_code := 422; Api.body := Api.ValidationReport errs |}, db).
Proof.
  intro H. exists (Api.query_errors skip limit).
  assert (N : Api.query_errors skip limit <> []).
  { unfold Api.query_errors.
    destruct (Z.ltb_spec skip 0); [discriminate|].
    destruct (Z.ltb_spec limit 1); [discriminate|].
    destruct (Z.ltb_spec 500 limit); [discriminate | lia]. }
  split; [exact N|]. split.
  - unfold Api.query_errors.
    rewrite Forall_forall. intros e He.
    destruct (skip <? 0), (limit <? 1), (500 <? limit); simpl in He;
      intuition (subst; simpl; auto).
  - simpl. unfold Api.route_list_products.
    cbn [Api.skip Api.limit Api.category Api.in_stock Api.default].
    destruct (Api.query_errors skip limit); [contradiction | reflexivity].
Qed.

Lemma list_query_rejected_witness :
  exists errs,
    Api.app online five_products
      (Api.GET_products {| Api.category := None; Api.in_stock := None;
                           Api.skip := Some 0; Api.limit := Some 501 |})
    = ({| Api.status_code := 422; Api.body := Api.ValidationReport errs |}, five_products).
Proof.
  destruct (list_query_rejected online five_products None None 0 501) as (errs & _ & _ & R).
  - right. right. lia.
  - exists errs. exact R.
Defined.

(** X13.  A List response never carries more records than its limit: a 200
    response holds at most limit records, 100 when no limit is given and
    never more than 500, and the table is left as it was. *)
Theorem list_page_bounded (env : Api.Env) (db db' : Db.Table) (q : Api.ListQuery)
    (products : list Product.object) :
  Api.route_list_products env db q
  = ({| Api.status_code := 200; Api.body := Api.Products products |}, db') ->
  Z.of_nat (List.length products) <= Api.default 100 (Api.limit q)
  /\ Api.default 100 (Api.limit q) <= 500
  /\ db' = db.
Proof.
  unfold Api.route_list_products.
  set (skip := Api.default 0 (Api.skip q)). set (limit := Api.default 100 (Api.limit q)).
  unfold Api.query_errors.
  destruct (Z.ltb_spec skip 0); [discriminate|].
  destruct (Z.ltb_spec limit 1); [discriminate|].
  destruct (Z.ltb_spec 500 limit); [discriminate|]. simpl.
  unfold Api.session. destruct (Api.ping env); [discriminate|].
  rewrite list_products_selects. simpl.
  destruct (Api.product_list _) as [ps|] eqn:E; simpl; [|discriminate].
  intro R. inversion R; subst. apply product_list_length in E.
  split; [|split; [assumption | reflexivity]].
  rewrite E, window_nonneg by lia.
  pose proof (firstn_le_length (Z.to_nat limit)
    (skipn (Z.to_nat skip)
       (List.filter (Spec.matches (applied (Api.category q)) (Api.in_stock q))
          (Db.rows db')))).
  lia.
Qed.

Lemma list_page_bounded_witness :
  exists products,
    Api.route_list_products online five_products
      {| Api.category := None; Api.in_stock := None; Api.skip := Some 1; Api.limit := Some 3 |}
    = ({| Api.status_code := 200; Api.body := Api.Products products |}, five_products)
    /\ Z.of_nat (List.length products) <= 3.
Proof.
  eexists. split; [reflexivity|].
  refine (proj1 (list_page_bounded online five_products five_products
                   {| Api.category := None; Api.in_stock := None;
                      Api.skip := Some 1; Api.limit := Some 3 |} _ eq_refl)).
Defined.

Lemma firstn_skipn_add {A : Type} (n m : nat) (l : list A) :
  firstn n l ++ firstn m (skipn n l) = firstn (n + m) l.
Proof.
  revert l. induction n as [|n IH]; intro l; simpl; [reflexivity|].
  destruct l as [|a l]; simpl; [now rewrite firstn_nil | now rewrite IH].
Qed.

Lemma skipn_add {A : Type} (n m : nat) (l : list A) :
  skipn (n + m) l = skipn m (skipn n l).
Proof.
  revert l. induction n as [|n IH]; intro l; simpl; [reflexivity|].
  destruct l as [|a l]; simpl; [now rewrite skipn_nil | apply IH].
Qed.

(** X14.  Consecutive pages fit together without gap or overlap: under the
    same filters, the page at skip of n records followed by the page at
    skip + n of m records is the page at skip of n + m records. *)
Theorem list_pages_concatenate (db : Db.Table) (category : option string)
    (in_stock : option bool) (skip n m : Z) :
  0 <= skip -> 0 <= n -> 0 <= m ->
  returned (Api.list_products db category in_stock skip n)
  ++ returned (Api.list_products db category in_stock (skip + n) m)
  = returned (Api.list_products db category in_stock skip (n + m)).
Proof.
  intros Hs Hn Hm. rewrite !list_products_selects. unfold returned. simpl.
  rewrite !window_nonneg by lia.
  rewrite !Z2Nat.inj_add by lia. rewrite skipn_add. apply firstn_skipn_add.
Qed.

Lemma list_pages_concatenate_witness :
  returned (Api.list_products five_products None None 1 2)
  ++ returned (Api.list_products five_products None None 3 2)
  = returned (Api.list_products five_products None None 1 4).
Proof. apply (list_pages_concatenate five_products None None 1 2 2); lia. Defined.

(** X15.  A first page that is long enough holds every matching record:
    with skip 0 and a limit not below the number of stored records, List
    returns exactly the stored records that match the filters it applies
    (an empty category applies none), in table order. *)
Theorem list_complete (db : Db.Table) (category : option string) (in_stock : option bool)
    (limit : Z) :
  Z.of_nat (List.length (Db.rows db)) <= limit ->
  returned (Api.list_products db category in_stock 0 limit)
  = List.filter (Spec.matches (applied category) in_stock) (Db.rows db).
Proof.
  intro H. rewrite list_products_selects. unfold returned. simpl.
  rewrite window_nonneg by lia. simpl.
  apply firstn_all2.
  pose proof (filter_length_le (Spec.matches (applied category) in_stock) (Db.rows db)). lia.
Qed.

Lemma list_complete_witness :
  map ProductModel.id (returned (Api.list_products five_products (Some "Tools") None 0 100))
  = [2; 4].
Proof.
  rewrite (list_complete five_products (Some "Tools") None 100); [reflexivity|].
  vm_compute. discriminate.
Defined.

(** ** Create: defaults and required fields *)



(** X17.  A creation input without a name or without a price is never
    stored and never answered with a success, whatever the other fields are
    and whatever the state of the database.  The answer is 422 with a
    non-empty report when the price is absent or a finite number, and 500
    when the price is present and not finite, since the report repeats the
    body and cannot be written. *)
Theorem create_requires_name_and_price (env : Api.Env) (db : Db.Table)
    (b : ProductCreate.body) :
  ProductCreate.b_name b = None \/ ProductCreate.b_price b = None ->
  snd (Api.app env db (Api.POST_products b)) = db
  /\ is_success (Api.status_code (fst (Api.app env db (Api.POST_products b)))) = false
  /\ (finite_price (ProductCreate.b_price b) ->
      exists errs,
        errs <> []
        /\ Api.app env db (Api.POST_products b)
           = ({| Api.status_code := 422; Api.body := Api.ValidationReport errs |}, db))
  /\ (forall p, ProductCreate.b_price b = Some p -> PrimFloat.is_finite p = false ->
      Api.app env db (Api.POST_products b) = (Api.server_error, db)).
Proof.
  intro H.
  assert (N : ProductCreate.errors b <> []).
  { unfold ProductCreate.errors. destruct H as [H|H].
    - apply app_not_nil. left. unfold ProductCreate.name_errors. rewrite H. discriminate.
    - apply app_not_nil. right. apply app_not_nil. left.
      unfold ProductCreate.price_errors. rewrite H. discriminate. }
  assert (R : Api.app env db (Api.POST_products b)
              = (Api.rejected (ProductCreate.echoed b) (ProductCreate.errors b), db)).
  { simpl. unfold Api.route_create_product, ProductCreate.validate.
    destruct (ProductCreate.errors b); [contradiction|].
    now destruct (ProductCreate.b_name b), (ProductCreate.b_price b). }
  rewrite R. cbn [fst snd]. split; [reflexivity|]. split; [|split].
  - destruct (rejected_cases (ProductCreate.echoed b) (ProductCreate.errors b))
      as [-> | ->]; reflexivity.
  - intro F. exists (ProductCreate.errors b). split; [exact N|].
    unfold Api.rejected. now rewrite create_echo_finite.
  - intros p Hp Inf. destruct H as [H|H]; [|congruence].
    unfold Api.rejected, ProductCreate.echoed, ProductCreate.body_floats.
    rewrite H, Hp. simpl. now rewrite Inf.
Qed.

Lemma create_requires_name_and_price_witness :
  (exists errs,
     Api.app online five_products
       (Api.POST_products (ProductCreate.make_body None (Some 3.5%float) None None None))
     = ({| Api.status_code := 422; Api.body := Api.ValidationReport errs |}, five_products))
  /\ Api.app online five_products
       (Api.POST_products (ProductCreate.make_body None (Some PrimFloat.nan) None None None))
     = (Api.server_error, five_products).
Proof.
  split.
  - destruct (create_requires_name_and_price online five_products
                (ProductCreate.make_body None (Some 3.5%float) None None None)
                (or_introl eq_refl)) as (_ & _ & R & _).
    destruct R as (errs & _ & R).
    + intros p E. inversion E. reflexivity.
    + exists errs. exact R.
  - destruct (create_requires_name_and_price online five_products
                (ProductCreate.make_body None (Some PrimFloat.nan) None None None)
                (or_introl eq_refl)) as (_ & _ & _ & R).
    exact (R PrimFloat.nan eq_refl eq_refl).
Defined.

(** ** The proxy over the service *)

Lemma json_body (r : Api.Response) :
  is_json (Api.body r) = true -> Mcp.json r = Mcp.Returns (Api.body r).
Proof. unfold Mcp.json. now destruct (Api.body r). Qed.

Lemma respond_json {A : Type} (status : Z) (model : A -> option Api.Body) (r : Result A) :
  (forall a b, model a = Some b -> is_json b = true) ->
  fails_properly r ->
  is_success (Api.status_code (Api.respond status model r)) = true ->
  is_json (Api.body (Api.respond status model r)) = true.
Proof.
  intros M Q. unfold Api.respond. destruct r as [a|e].
  - destruct (model a) as [b|] eqn:E; simpl; [intros _; now apply (M a) | discriminate].
  - destruct e; simpl; try discriminate.
    intro S. rewrite (Q status_code detail eq_refl) in S. discriminate.
Qed.

Lemma not_null_raises (r : ProductModel.t) (e : Exception) :
  ProductModel.not_null r = Raise e -> exists column, e = IntegrityError column.
Proof.
  unfold ProductModel.not_null.
  destruct (ProductModel.name r), (ProductModel.price r); intro H; inversion H; now eexists.
Qed.

Lemma refresh_fails_properly (db : Db.Table) (k : Z) : fails_properly (Db.refresh db k).
Proof.
  unfold fails_properly, Db.refresh. intros st d. destruct (Db.first _); discriminate.
Qed.

Lemma handlers_fail_properly (env : Api.Env) (db : Db.Table) :
  (forall k, fails_properly (fst (Api.session env db (Api.get_product db k))))
  /\ (forall product, fails_properly (fst (Api.session env db (Api.create_product db product))))
  /\ (forall k patch, fails_properly (fst (Api.session env db (Api.update_product db k patch)))).
Proof.
  assert (NF : forall k st d, Raise (A := ProductModel.t) (Api.not_found k)
                              = Raise (HTTPException st d) -> is_success st = false).
  { intros k st d H. inversion H. reflexivity. }
  unfold Api.session. destruct (Api.ping env); [repeat split; intros; intros st d; discriminate|].
  split; [|split].
  - intros k st d. unfold Api.get_product. destruct (Db.first _); simpl; [discriminate|].
    apply NF.
  - intros product. unfold Api.create_product, Db.add_commit. simpl.
    apply refresh_fails_properly.
  - intros k patch st d. unfold Api.update_product.
    destruct (Db.first _); simpl; [|apply NF].
    unfold Db.commit. destruct (negb _); simpl; [|apply refresh_fails_properly].
    destruct (ProductModel.not_null _) as [[]|e] eqn:N; simpl; [apply refresh_fails_properly|].
    apply not_null_raises in N. destruct N as (c & ->). discriminate.
Qed.

(** The body of a 2xx response is JSON for every request but Delete. *)
Lemma app_success_json (env : Api.Env) (db : Db.Table) (req : Api.Request) :
  (forall k, req <> Api.DELETE_product k) ->
  is_success (Api.status_code (fst (Api.app env db req))) = true ->
  is_json (Api.body (fst (Api.app env db req))) = true.
Proof.
  intro ND. destruct (handlers_fail_properly env db) as (Qg & Qc & Qu).
  destruct req as [|q|k|b|k u|k| |]; simpl.
  - reflexivity.
  - unfold Api.route_list_products. destruct (Api.query_errors _ _); [|discriminate].
    destruct (Api.session env db _) as [r db'] eqn:E. simpl.
    apply respond_json.
    + intros a b. destruct (Api.product_list a); simpl; intro H; inversion H. reflexivity.
    + unfold Api.session, Api.list_products in E.
      destruct (Api.ping env); inversion E; intros st d; discriminate.
  - unfold Api.route_get_product. specialize (Qg k).
    destruct (Api.session env db _) as [r db']. simpl in *.
    apply respond_json; [|exact Qg].
    intros a b. unfold Api.one_product.
    destruct (Product.from_attributes a); simpl; intro H; inversion H. reflexivity.
  - unfold Api.route_create_product. destruct (ProductCreate.validate b) as [errs|t].
    { cbn [fst]. destruct (rejected_cases (ProductCreate.echoed b) errs) as [-> | ->];
        discriminate. }
    specialize (Qc t). destruct (Api.session env db _) as [r db']. simpl in *.
    apply respond_json; [|exact Qc].
    intros a b'. unfold Api.one_product.
    destruct (Product.from_attributes a); simpl; intro H; inversion H. reflexivity.
  - unfold Api.route_update_product. destruct (ProductUpdate.validate u) as [errs|t].
    { cbn [fst]. destruct (rejected_cases (ProductUpdate.echoed u) errs) as [-> | ->];
        discriminate. }
    specialize (Qu k t). destruct (Api.session env db _) as [r db']. simpl in *.
    apply respond_json; [|exact Qu].
    intros a b. unfold Api.one_product.
    destruct (Product.from_attributes a); simpl; intro H; inversion H. reflexivity.
  - now elim (ND k).
  - unfold Api.route_list_categories.
    destruct (Api.session env db _) as [r db'] eqn:E. simpl.
    apply respond_json; [intros a b H; now inversion H|].
    unfold Api.session, Api.list_categories in E.
    destruct (Api.ping env); inversion E; intros st d; discriminate.
  - unfold Api.route_health_check, Api.health_check.
    destruct (Api.ping env); simpl; [discriminate | reflexivity].
Qed.

Lemma request_wired (env : Api.Env) (link : Mcp.Link) (reason : Z -> string)
    (db : Db.Table) (req : Api.Request) :
  Mcp.encodable req = true ->
  Mcp.request Db.Table (Mcp.wire env link) reason db req
  = match link with
    | Mcp.Up =>
        (Mcp.raise_for_status reason (fst (Api.app env db req)), snd (Api.app env db req))
    | Mcp.Down msg => (Mcp.Raises (Mcp.Httpx (Mcp.RequestError msg)), db)
    | Mcp.Lost msg =>
        (Mcp.Raises (Mcp.Httpx (Mcp.RequestError msg)), snd (Api.app env db req))
    end.
Proof.
  intro Enc. unfold Mcp.request, Mcp.wire. rewrite Enc. destruct link; [|reflexivity|];
    now destruct (Api.app env db req).
Qed.

Lemma raise_for_status_cases (reason : Z -> string) (r : Api.Response) :
  Mcp.raise_for_status reason r
  = if is_success (Api.status_code r) then Mcp.Returns r
    else Mcp.Raises (Mcp.Httpx (Mcp.HTTPStatusError (Api.status_code r)
                                  (reason (Api.status_code r)))).
Proof. reflexivity. Qed.

(** What [fetch] gives over a wired link, for a request other than Delete. *)
Lemma fetch_wired (env : Api.Env) (link : Mcp.Link) (reason : Z -> string)
    (db : Db.Table) (req : Api.Request) :
  Mcp.encodable req = true ->
  (forall k, req <> Api.DELETE_product k) ->
  let response := fst (Api.app env db req) in
  let st := Api.status_code response in
  Mcp.fetch Db.Table (Mcp.wire env link) reason db req
  = match link with
    | Mcp.Up =>
        (if is_success st then Mcp.Returns (Api.body response)
         else Mcp.Raises (Mcp.Httpx (Mcp.HTTPStatusError st (reason st))),
         snd (Api.app env db req))
    | Mcp.Down msg => (Mcp.Raises (Mcp.Httpx (Mcp.RequestError msg)), db)
    | Mcp.Lost msg =>
        (Mcp.Raises (Mcp.Httpx (Mcp.RequestError msg)), snd (Api.app env db req))
    end.
Proof.
  intros Enc ND response st. unfold Mcp.fetch. rewrite request_wired by exact Enc.
  destruct link; try reflexivity.
  rewrite raise_for_status_cases. fold response. fold st.
  destruct (is_success st) eqn:S; [|reflexivity].
  rewrite json_body; [reflexivity|]. now apply app_success_json.
Qed.

(** Over a wired link [fetch] returns a body or raises an [httpx] error. *)
Lemma fetch_shape (env : Api.Env) (link : Mcp.Link) (reason : Z -> string)
    (db : Db.Table) (req : Api.Request) :
  Mcp.encodable req = true ->
  (forall k, req <> Api.DELETE_product k) ->
  (exists b, fst (Mcp.fetch Db.Table (Mcp.wire env link) reason db req) = Mcp.Returns b)
  \/ (exists e, fst (Mcp.fetch Db.Table (Mcp.wire env link) reason db req)
                = Mcp.Raises (Mcp.Httpx e)).
Proof.
  intros Enc ND. rewrite fetch_wired by assumption. cbv zeta.
  destruct link; [|right; now eexists|right; now eexists].
  destruct (is_success _); [left | right]; now eexists.
Qed.

Lemma handled (prefix : string) (o : Mcp.Outcome Api.Body) :
  (exists b, o = Mcp.Returns b) \/ (exists e, o = Mcp.Raises (Mcp.Httpx e)) ->
  exists payload, Mcp.except_HTTPError prefix (Mcp.relay o) = Mcp.Returns payload.
Proof. intros [(b & ->) | (e & ->)]; now eexists. Qed.

Lemma handled_status (k : Z) (prefix : string) (o : Mcp.Outcome Mcp.Payload) :
  (exists b, o = Mcp.Returns b) \/ (exists e, o = Mcp.Raises (Mcp.Httpx e)) ->
  exists payload, Mcp.except_status_then_HTTPError k prefix o = Mcp.Returns payload.
Proof.
  intros [(b & ->) | (e & ->)]; [now eexists|].
  destruct e as [st msg|msg]; unfold Mcp.except_status_then_HTTPError;
    [destruct (st =? 404)|]; now eexists.
Qed.

Lemma relay_shape (o : Mcp.Outcome Api.Body) :
  (exists b, o = Mcp.Returns b) \/ (exists e, o = Mcp.Raises (Mcp.Httpx e)) ->
  (exists b, Mcp.relay o = Mcp.Returns b) \/ (exists e, Mcp.relay o = Mcp.Raises (Mcp.Httpx e)).
Proof. intros [(b & ->) | (e & ->)]; [left | right]; now eexists. Qed.

Ltac unfold_tools :=
  unfold Mcp.invoke;
  unfold Mcp.list_products, Mcp.get_product, Mcp.create_product, Mcp.update_product,
         Mcp.delete_product, Mcp.get_categories;
  rewrite let_pair.

Lemma given_encodable (product_id : Z) (name : option string) (price : option float)
    (description category : option string) (in_stock : option bool) :
  finite_price price ->
  Mcp.encodable
    (Mcp.update_product_request product_id name price description category in_stock) = true.
Proof.
  intro F. unfold Mcp.update_product_request, Mcp.encodable, Mcp.given. simpl.
  destruct price as [p|]; [exact (F p eq_refl) | reflexivity].
Qed.

(** X18.  Wired to the service, a tool whose request can be written hands no
    exception to its caller: whatever the tool call with a finite price (or
    none), the state of the link and the state of the database, the tool
    returns a payload. *)
Theorem proxy_never_raises (env : Api.Env) (link : Mcp.Link) (reason : Z -> string)
    (db : Db.Table) (c : Mcp.ToolCall) :
  Mcp.encodable (Mcp.request_of c) = true ->
  exists payload,
    fst (Mcp.invoke (Mcp.wire env link) reason db c) = Mcp.Returns payload.
Proof.
  intro Enc. destruct c; unfold Mcp.request_of in Enc; unfold_tools; cbn [fst].
  - apply handled, fetch_shape; [exact Enc | intros k H; discriminate H].
  - apply handled_status, relay_shape, fetch_shape; [exact Enc | intros k H; discriminate H].
  - apply handled, fetch_shape; [exact Enc | intros k H; discriminate H].
  - apply handled_status, relay_shape, fetch_shape; [exact Enc | intros k H; discriminate H].
  - apply handled_status. rewrite request_wired by exact Enc.
    destruct link; cbn [fst]; [|right; now eexists|right; now eexists].
    rewrite raise_for_status_cases. destruct (is_success _); [left | right]; now eexists.
  - apply handled, fetch_shape; [exact Enc | intros k H; discriminate H].
Qed.

Lemma proxy_never_raises_witness :
  exists payload,
    fst (Mcp.invoke (Mcp.wire online (Mcp.Lost "timed out")) (fun _ => "status") five_products
           (Mcp.call_create_product "Gizmo" 3.5%float None "General" true))
    = Mcp.Returns payload.
Proof.
  exact (proxy_never_raises online (Mcp.Lost "timed out") (fun _ => "status") five_products
           (Mcp.call_create_product "Gizmo" 3.5%float None "General" true) eq_refl).
Defined.

(** X19.  Wired to the service over a working link, a tool whose request
    can be written relays what the service answered: when the response to
    the tool's request has a 2xx status, the tool returns its decoded body
    unchanged (the delete tool, whose response has no body, returns the
    message "Product <id> deleted"), and the table is the one the service
    left. *)
Theorem proxy_relays (env : Api.Env) (reason : Z -> string) (db : Db.Table)
    (c : Mcp.ToolCall) :
  Mcp.encodable (Mcp.request_of c) = true ->
  is_success (Api.status_code (fst (Api.app env db (Mcp.request_of c)))) = true ->
  Mcp.invoke (direct env) reason db c
  = (Mcp.Returns
       match c with
       | Mcp.call_delete_product product_id =>
           Mcp.Success ("Product " ++ str_int product_id ++ " deleted")%string
       | _ => Mcp.Relayed (Api.body (fst (Api.app env db (Mcp.request_of c))))
       end,
     snd (Api.app env db (Mcp.request_of c))).
Proof.
  intros Enc S. unfold direct.
  destruct c; unfold Mcp.request_of in *; unfold_tools;
    try (rewrite fetch_wired by (exact Enc || (intros k H; discriminate H)); cbv zeta;
         rewrite S; reflexivity).
  rewrite request_wired, raise_for_status_cases by exact Enc. cbn [fst snd].
  rewrite S. reflexivity.
Qed.

Lemma proxy_relays_witness :
  Mcp.invoke (direct online) (fun _ => "status") five_products (Mcp.call_get_product 2)
  = (Mcp.Returns
       (Mcp.Relayed
          (Api.OneProduct
             (Product.model_dump
                (Product.make 2 "Gadget" 12.5%float (Some "A gadget") "Tools" true)))),
     five_products).
Proof.
  exact (proxy_relays online (fun _ => "status") five_products (Mcp.call_get_product 2)
           eq_refl eq_refl).
Defined.

(** X20.  The update and delete tools report a missing record as the get
    tool does: for an identifier that no stored record has, over a working
    link and a database that answers, each returns the payload
    {error: "Product <id> not found"} and the table is left as it was,
    whatever fields the update carried, provided they pass validation and
    the price, when one is given, is a finite number. *)
Theorem proxy_update_delete_missing (env : Api.Env) (reason : Z -> string)
    (db : Db.Table) (product_id : Z) (name : option string) (price : option float)
    (description category : option string) (in_stock : option bool) :
  ~ In product_id (Db.ids db) ->
  Api.ping env = None ->
  finite_price price ->
  ProductUpdate.errors
    (ProductUpdate.make (Mcp.given name) (Mcp.given price) (Mcp.given description)
       (Mcp.given category) (Mcp.given in_stock)) = [] ->
  let missing := Mcp.Error ("Product " ++ str_int product_id ++ " not found")%string in
  Mcp.update_product Db.Table (direct env) reason db product_id
    name price description category in_stock = (Mcp.Returns missing, db)
  /\ Mcp.delete_product Db.Table (direct env) reason db product_id = (Mcp.Returns missing, db).
Proof.
  intros H P Fin E missing. unfold direct. split.
  - unfold Mcp.update_product. rewrite let_pair.
    rewrite fetch_wired
      by (now apply given_encodable || (intros k X; discriminate X)). cbv zeta.
    unfold Mcp.update_product_request. cbn [Api.app].
    rewrite update_valid_route by assumption.
    unfold Api.update_product. rewrite first_by_id, (find_absent _ _ H). reflexivity.
  - unfold Mcp.delete_product. rewrite let_pair, request_wired by reflexivity.
    cbn [Api.app fst snd].
    unfold Api.route_delete_product. rewrite session_up by exact P.
    destruct (absent_not_found db product_id H) as [_ ->]. reflexivity.
Qed.

Lemma proxy_update_delete_missing_witness :
  Mcp.update_product Db.Table (direct online) (fun _ => "status") five_products 9
    None (Some 3.5%float) None None None
  = (Mcp.Returns (Mcp.Error "Product 9 not found"), five_products)
  /\ Mcp.delete_product Db.Table (direct online) (fun _ => "status") five_products 9
     = (Mcp.Returns (Mcp.Error "Product 9 not found"), five_products).
Proof.
  assert (A : ~ In 9 (Db.ids five_products)) by (vm_compute; intuition discriminate).
  assert (F : finite_price (Some 3.5%float)) by (intros p E; inversion E; reflexivity).
  exact (proxy_update_delete_missing online (fun _ => "status") five_products 9
           None (Some 3.5%float) None None None A eq_refl F eq_refl).
Defined.

(** X21.  The delete tool removes an existing record once: over a working
    link and a database that answers it returns {success, "Product <id>
    deleted"} and the record is gone; the same call again returns
    {error: "Product <id> not found"} and changes nothing. *)
Theorem proxy_delete_once (env : Api.Env) (reason : Z -> string) (db : Db.Table)
    (product_id : Z) (row : ProductModel.t) :
  Api.get_product db product_id = (Return row, db) ->
  Api.ping env = None ->
  exists db',
    Mcp.delete_product Db.Table (direct env) reason db product_id
    = (Mcp.Returns (Mcp.Success ("Product " ++ str_int product_id ++ " deleted")%string), db')
    /\ stored db' product_id = Raise (Api.not_found product_id)
    /\ Mcp.delete_product Db.Table (direct env) reason db' product_id
       = (Mcp.Returns (Mcp.Error ("Product " ++ str_int product_id ++ " not found")%string), db').
Proof.
  intros G P. apply get_product_found in G. destruct G as [F Hid].
  assert (D : Api.delete_product db product_id = (Return tt, Db.delete_commit db row)).
  { unfold Api.delete_product. now rewrite first_by_id, F. }
  assert (Gone : find (Db.id_eq product_id) (Db.rows (Db.delete_commit db row)) = None).
  { unfold Db.delete_commit. simpl. rewrite Hid. apply find_deleted. }
  exists (Db.delete_commit db row). unfold direct. split; [|split].
  - unfold Mcp.delete_product. rewrite let_pair, request_wired by reflexivity.
    cbn [Api.app fst snd].
    unfold Api.route_delete_product. rewrite session_up, D by exact P. reflexivity.
  - rewrite stored_find. now rewrite Gone.
  - unfold Mcp.delete_product. rewrite let_pair, request_wired by reflexivity.
    cbn [Api.app fst snd].
    unfold Api.route_delete_product. rewrite session_up by exact P.
    unfold Api.delete_product. rewrite first_by_id, Gone. reflexivity.
Qed.

Lemma proxy_delete_once_witness :
  exists db',
    Mcp.delete_product Db.Table (direct online) (fun _ => "status") five_products 4
    = (Mcp.Returns (Mcp.Success "Product 4 deleted"), db')
    /\ Db.ids db' = [1; 2; 3; 5].
Proof.
  destruct (proxy_delete_once online (fun _ => "status") five_products 4
              (created 4 (ProductCreate.make "Gadget" 12.5%float (Some "A gadget") "Tools" false))
              eq_refl eq_refl) as (db' & D & _).
  exists db'. split; [exact D|].
  assert (E : db' = snd (Mcp.delete_product Db.Table (direct online) (fun _ => "status")
                           five_products 4)) by now rewrite D.
  rewrite E. reflexivity.
Defined.

(** X22.  The update tool called with no field is a read: for a stored
    record that the response model can represent, over a working link and
    a database that answers, it returns the record as the get tool does and
    leaves the table as it was. *)
Theorem proxy_update_nothing (env : Api.Env) (reason : Z -> string) (db : Db.Table)
    (product_id : Z) (row : ProductModel.t) (p : Product.t) :
  Api.get_product db product_id = (Return row, db) ->
  Product.from_attributes row = Some p ->
  Api.ping env = None ->
  Mcp.update_product Db.Table (direct env) reason db product_id None None None None None
  = (Mcp.Returns (Mcp.Relayed (Api.OneProduct (Product.model_dump p))), db)
  /\ Mcp.get_product Db.Table (direct env) reason db product_id
     = (Mcp.Returns (Mcp.Relayed (Api.OneProduct (Product.model_dump p))), db).
Proof.
  intros G S P. pose proof G as G0. apply get_product_found in G. destruct G as [F Hid].
  assert (U : Api.update_product db product_id ProductUpdate.empty = (Return row, db)).
  { rewrite (update_product_found db product_id row ProductUpdate.empty F). simpl.
    unfold Db.refresh. now rewrite first_by_id, Hid, F. }
  unfold direct. split.
  - unfold Mcp.update_product. rewrite let_pair.
    rewrite fetch_wired by (reflexivity || (intros k X; discriminate X)). cbv zeta.
    unfold Mcp.update_product_request, Mcp.given. cbn [Api.app].
    change (ProductUpdate.make None None None None None) with ProductUpdate.empty.
    rewrite update_valid_route by (exact P || reflexivity). rewrite U.
    cbn [fst snd Api.respond]. unfold Api.one_product. rewrite S. reflexivity.
  - unfold Mcp.get_product. rewrite let_pair.
    rewrite fetch_wired by (reflexivity || (intros k X; discriminate X)). cbv zeta.
    cbn [Api.app].
    unfold Api.route_get_product. rewrite session_up, G0 by exact P.
    cbn [fst snd Api.respond]. unfold Api.one_product. rewrite S. reflexivity.
Qed.

Lemma proxy_update_nothing_witness :
  Mcp.update_product Db.Table (direct online) (fun _ => "status") five_products 1
    None None None None None
  = (Mcp.Returns
       (Mcp.Relayed
          (Api.OneProduct
             (Product.model_dump (Product.make 1 "Widget" 9.5%float None "General" true)))),
     five_products).
Proof.
  exact (proj1 (proxy_update_nothing online (fun _ => "status") five_products 1
                  (created 1 widget_product) _ eq_refl eq_refl eq_refl)).
Defined.

(** X23.  The proxy cannot null a field: in every update request a tool
    call sends, no field is set to an explicit null, since an argument that
    is None is left out of the request. *)
Theorem proxy_sends_no_null (c : Mcp.ToolCall) (product_id : Z) (patch : ProductUpdate.t) :
  Mcp.request_of c = Api.PUT_product product_id patch ->
  ~ nulled (ProductUpdate.name patch) /\ ~ nulled (ProductUpdate.price patch)
  /\ ~ nulled (ProductUpdate.description patch) /\ ~ nulled (ProductUpdate.category patch)
  /\ ~ nulled (ProductUpdate.in_stock patch).
Proof.
  destruct c; try discriminate. unfold Mcp.request_of, Mcp.update_product_request.
  intro H. inversion H; subst. unfold nulled, Mcp.given. simpl.
  destruct name, price, description, category, in_stock; repeat split; discriminate.
Qed.

Lemma proxy_sends_no_null_witness :
  ~ nulled (ProductUpdate.category
              (ProductUpdate.make (Mcp.given (Some "Gizmo")) (Mcp.given None) (Mcp.given None)
                 (Mcp.given None) (Mcp.given None))).
Proof.
  exact (proj1 (proj2 (proj2 (proj2
    (proxy_sends_no_null (Mcp.call_update_product 1 (Some "Gizmo") None None None None)
       1 _ eq_refl))))).
Defined.

(** X24.  The proxy validates nothing itself: a create call with a finite
    price at most zero, or with a finite price and an empty name or an
    oversize text, reaches the service, is rejected there, and comes back
    as the payload {error: "Failed to create product: ..."} with nothing
    stored, whatever the state of the database. *)
Theorem proxy_create_rejected (env : Api.Env) (reason : Z -> string) (db : Db.Table)
    (name : string) (price : float) (description : option string) (category : string)
    (in_stock : bool) :
  PrimFloat.is_finite price = true ->
  invalid_create (ProductCreate.make_body (Some name) (Some price) description
                    (Some category) (Some in_stock)) ->
  Mcp.create_product Db.Table (direct env) reason db name price description category in_stock
  = (Mcp.Returns (Mcp.Error ("Failed to create product: " ++ reason 422)%string), db).
Proof.
  intros Fin I. apply invalid_create_errors in I.
  unfold direct, Mcp.create_product. rewrite let_pair.
  rewrite fetch_wired by (exact Fin || (intros k X; discriminate X)). cbv zeta.
  unfold Mcp.create_product_request. cbn [Api.app].
  unfold Api.route_create_product, ProductCreate.validate.
  destruct (ProductCreate.errors _) as [|e errs]; [contradiction|].
  unfold Api.rejected. rewrite create_echo_finite; [reflexivity|].
  intros p E. inversion E. subst p. exact Fin.
Qed.

Lemma proxy_create_rejected_witness :
  Mcp.create_product Db.Table (direct online) (fun _ => "Client error") five_products
    "Gizmo" (-1)%float None "General" true
  = (Mcp.Returns (Mcp.Error "Failed to create product: Client error"), five_products).
Proof.
  apply (proxy_create_rejected online (fun _ => "Client error") five_products);
    [reflexivity|].
  left. exists (-1)%float. split; reflexivity.
Defined.

(** X25.  When the request can be written but cannot be sent (connection
    refused, no route), every tool returns an error payload that ends with
    the transport's message, and the table is untouched. *)
Theorem proxy_link_down (env : Api.Env) (reason : Z -> string) (db : Db.Table)
    (c : Mcp.ToolCall) (msg : string) :
  Mcp.encodable (Mcp.request_of c) = true ->
  exists prefix,
    Mcp.invoke (Mcp.wire env (Mcp.Down msg)) reason db c
    = (Mcp.Returns (Mcp.Error (prefix ++ msg)%string), db).
Proof.
  intro Enc. destruct c; unfold Mcp.request_of in Enc; unfold_tools;
    try rewrite fetch_wired by (exact Enc || (intros k H; discriminate H));
    try rewrite request_wired by exact Enc;
    cbn [fst snd]; eexists; reflexivity.
Qed.

Lemma proxy_link_down_witness :
  exists prefix,
    Mcp.invoke (Mcp.wire online (Mcp.Down "connection refused")) (fun _ => "status")
      five_products (Mcp.call_update_product 1 None (Some 3.5%float) None None None)
    = (Mcp.Returns (Mcp.Error (prefix ++ "connection refused")%string), five_products).
Proof.
  exact (proxy_link_down online (fun _ => "status") five_products
           (Mcp.call_update_product 1 None (Some 3.5%float) None None None)
           "connection refused" eq_refl).
Defined.

(** X26.  A create or update call whose price is an infinity or not a
    number sends nothing: the client cannot write the request, the tool
    raises ValueError to its caller (its handlers catch httpx errors only),
    and the state behind the connection is untouched, whatever the link and
    the service are. *)
Theorem proxy_unwritable_raises (S : Type)
    (send : S -> Api.Request -> (Api.Response + string) * S) (reason : Z -> string)
    (s : S) (c : Mcp.ToolCall) :
  Mcp.encodable (Mcp.request_of c) = false ->
  Mcp.invoke send reason s c = (Mcp.Raises Mcp.ValueError, s).
Proof.
  intro Enc.
  destruct c; unfold Mcp.request_of in Enc; try discriminate Enc; unfold_tools;
    unfold Mcp.fetch, Mcp.request; rewrite Enc; reflexivity.
Qed.

Lemma proxy_unwritable_raises_witness :
  Mcp.invoke (direct online) (fun _ => "status") five_products
    (Mcp.call_create_product "Gizmo" PrimFloat.infinity None "General" true)
  = (Mcp.Raises Mcp.ValueError, five_products)
  /\ Mcp.invoke (direct online) (fun _ => "status") five_products
       (Mcp.call_update_product 1 None (Some PrimFloat.nan) None None None)
     = (Mcp.Raises Mcp.ValueError, five_products).
Proof.
  split.
  - exact (proxy_unwritable_raises Db.Table (direct online) (fun _ => "status") five_products
             (Mcp.call_create_product "Gizmo" PrimFloat.infinity None "General" true) eq_refl).
  - exact (proxy_unwritable_raises Db.Table (direct online) (fun _ => "status") five_products
             (Mcp.call_update_product 1 None (Some PrimFloat.nan) None None None) eq_refl).
Defined.
